(** * Credit-card fraud detection dashboard: the client's data shaping

    A shallow embedding of the TypeScript pages and components of the
    React client (Transactions, TransactionsTable, Login, History,
    Analytics, Settings, Dashboard) and the properties their code
    satisfies.

    JavaScript numbers are IEEE-754 binary64 values: they are modelled by
    Rocq's primitive floats, whose operations are the same ones.  Counts,
    array lengths, page numbers and epoch milliseconds are integers far
    below 2^53, where binary64 arithmetic is exact: they are modelled by
    [Z] and [nat]. *)

From Stdlib Require Import ZArith Floats Uint63 Bool List Ascii String Lia.
From Stdlib Require Import Sorting.Sorted Sorting.Permutation.
From stdpp Require Import base option gmap strings list fin_maps.

Local Open Scope Z_scope.

(* ===================================================================== *)
(** * JavaScript values *)
(* ===================================================================== *)

Module JS.

(** ** Numbers *)

Definition number := float.

Definition NaN : number := PrimFloat.nan.

(** [ToBoolean] on a number: [+0], [-0] and [NaN] are falsy. *)
Definition number_truthy (x : number) : bool :=
  negb (PrimFloat.eqb x 0%float || PrimFloat.is_nan x).

(** [a > b] and [a >= b] are [b < a] and [b <= a]. *)
Definition gt (a b : number) : bool := PrimFloat.ltb b a.
Definition ge (a b : number) : bool := PrimFloat.leb b a.
Definition le (a b : number) : bool := PrimFloat.leb a b.

(** The binary64 value of an integer [z] with [|z| < 2^53] (exact there). *)
Definition of_Z (z : Z) : number :=
  match z with
  | Z0 => 0%float
  | Zpos _ => PrimFloat.of_uint63 (Uint63.of_Z z)
  | Zneg _ => PrimFloat.opp (PrimFloat.of_uint63 (Uint63.of_Z (- z)))
  end.

(** [Math.round]: the integer closest to [x], ties towards +infinity, that
    is floor(x + 1/2) computed exactly; zeros, infinities and NaN are
    returned as they are, and a result of zero keeps the sign of [x].  A
    finite [x = (-1)^s * m * 2^e] with [e >= 0] is an integer already; with
    [e < 0], [|x| < 2^53] and the result is exact in binary64. *)
Definition Math_round (x : number) : number :=
  match Prim2SF x with
  | S754_finite s m e =>
      if 0 <=? e then x
      else
        let sm := if s then Zneg m else Zpos m in
        let r := Z.shiftr (2 * sm + Z.shiftl 1 (- e)) (1 - e) in
        if r =? 0 then (if s then (-0)%float else 0%float) else of_Z r
  | _ => x
  end.

(** ** Values: what [JSON.parse] and the API client hand to the pages *)

#[warnings="-register-all"]
Inductive value : Type :=
| Undefined
| Null
| Bool (b : bool)
| Number (x : number)
| String (s : string)
| Array (elems : list value)
| Object (props : list (string * value)).

(** [ToBoolean]. *)
Definition truthy (v : value) : bool :=
  match v with
  | Undefined | Null => false
  | Bool b => b
  | Number x => number_truthy x
  | String s => negb (String.eqb s "")
  | Array _ | Object _ => true
  end.

(** [typeof v === "boolean"]. *)
Definition typeof_boolean (v : value) : bool :=
  match v with Bool _ => true | _ => false end.

Fixpoint assoc (k : string) (props : list (string * value)) : value :=
  match props with
  | [] => Undefined
  | (k', v) :: rest => if String.eqb k k' then v else assoc k rest
  end.

(** A field the API may leave out ([undefined]) or send as [null]. *)
Inductive nullable (A : Type) : Type :=
| Absent
| IsNull
| Present (a : A).
Arguments Absent {A}.
Arguments IsNull {A}.
Arguments Present {A} a.

(** [x ?? d]: the default replaces [undefined] and [null] only. *)
Definition nullish {A : Type} (x : nullable A) (d : A) : A :=
  match x with Present a => a | _ => d end.

(** [s.slice(-n)]: the last [n] code units of [s], all of [s] when it is
    shorter.  Identifiers are ASCII, one byte per code unit. *)
Definition slice_last (n : nat) (s : string) : string :=
  String.substring (String.length s - n) n s.

(** [s.slice(0, n)]. *)
Definition slice_first (n : nat) (s : string) : string :=
  String.substring 0 n s.

(** [s.includes(t)]. *)
Definition includes (s t : string) : bool :=
  match String.index 0 t s with Some _ => true | None => false end.

(** [v?.k] for an own data property [k] of a plain object.  The pages only
    read the keys [ui], [history], [currency], [showFeatureImportance],
    [itemsPerPage], [autoRefresh] and [refreshSec], none of which is a
    property of a primitive's wrapper, of an array or of [Object.prototype]. *)
Definition get (v : value) (k : string) : value :=
  match v with
  | Object props => assoc k props
  | _ => Undefined
  end.

Section Conversions.

(** [Number(s)] on a string (the numeric-literal grammar) and on an array
    or an object (through [ToPrimitive]), as the platform computes them. *)
Variable StringToNumber : string -> number.
Variable ObjectToNumber : value -> number.

(** [Number(v)]. *)
Definition ToNumber (v : value) : number :=
  match v with
  | Undefined => NaN
  | Null => 0%float
  | Bool b => if b then 1%float else 0%float
  | Number x => x
  | String s => StringToNumber s
  | Array _ | Object _ => ObjectToNumber v
  end.

End Conversions.

End JS.

(* ===================================================================== *)
(** * The Transactions page *)
(* ===================================================================== *)

Module Transactions.
Import JS.

(** The union type ["fraudulent" | "legitimate" | "pending"]. *)
Inductive Status : Type := fraudulent | legitimate | pending.

Definition status_name (s : Status) : string :=
  match s with
  | fraudulent => "fraudulent"
  | legitimate => "legitimate"
  | pending => "pending"
  end.

(** Modelled from the spec: a transaction of [TransactionListApiResponse],
    whose TypeScript declaration (the API client module) is not among the
    sources.  The spec has it as a flat record with simple booleans and
    floats ([is_fraud], [fraud_score]); the fields are those the page
    reads, each as optional as the page's guards ([??], [?:]) allow. *)
Record ApiTransaction : Type := {
  txn_id : string;
  txn_amount : nullable value;
  txn_fraud_score : nullable number;
  txn_is_fraud : bool;
  txn_card_id : nullable string;
  txn_transaction_date : string;
  txn_merchant_name : nullable string;
  txn_location : nullable string
}.

Record TransactionListApiResponse : Type := {
  transactions : list ApiTransaction
}.

Record TableTransaction : Type := {
  id : string;
  date : string;
  cardNumber : string;
  amount : number;
  merchant : string;
  location : string;
  riskScore : number;
  status : Status
}.

(** The filter state of the page; every field is optional. *)
Record Filters : Type := {
  searchId : option string;
  status_filter : option string;
  riskLevel : option string
}.

Inductive risk_level : Type := high | medium | low.

Definition risk_level_name (r : risk_level) : string :=
  match r with high => "high" | medium => "medium" | low => "low" end.

(** [getRiskLevel] of the table (the same function is repeated in the
    alerts table and in the prediction result card). *)
Definition getRiskLevel (score : number) : risk_level :=
  if ge score 70%float then high
  else if ge score 40%float then medium
  else low.

(** [txn.fraud_score ? Math.round(txn.fraud_score * 100) : 0]. *)
Definition riskScore_of (fraud_score : nullable number) : number :=
  match fraud_score with
  | Present x =>
      if number_truthy x then Math_round (PrimFloat.mul x 100%float)
      else 0%float
  | _ => 0%float
  end.

Definition status_from (is_fraud : bool) (riskScore : number) : Status :=
  if is_fraud then fraudulent
  else if gt riskScore 60%float then pending
  else legitimate.

(** [txn.card_id ? txn.card_id.slice(-4) : "0000"]. *)
Definition cardSuffix (card_id : nullable string) : string :=
  match card_id with
  | Present c => if String.eqb c "" then "0000" else slice_last 4 c
  | _ => "0000"
  end.

(** [riskMap[level] || [0, 100]].  The level is a value of the filter's
    select: "all", "high", "medium" or "low". *)
Definition riskMap (level : string) : number * number :=
  if String.eqb level "high" then (70%float, 100%float)
  else if String.eqb level "medium" then (40%float, 69%float)
  else if String.eqb level "low" then (0%float, 39%float)
  else (0%float, 100%float).

Definition in_risk_range (level : string) (tx : TableTransaction) : bool :=
  let '(min, max) := riskMap level in
  ge (riskScore tx) min && le (riskScore tx) max.

(** [f && f !== "all"] for an optional filter string. *)
Definition active (f : option string) : option string :=
  match f with
  | Some s => if String.eqb s "" || String.eqb s "all" then None else Some s
  | None => None
  end.

Section Page.

(** Built-ins of the platform: the conversions behind [Number(v)],
    [new Date(s).toLocaleString()] and [String.prototype.toLowerCase]. *)
Variable StringToNumber : string -> number.
Variable ObjectToNumber : value -> number.
Variable toLocaleString : string -> string.
Variable toLowerCase : string -> string.

Definition mapTransaction (txn : ApiTransaction) : TableTransaction :=
  let amount :=
    ToNumber StringToNumber ObjectToNumber
      (nullish (txn_amount txn) (Number 0%float)) in
  let riskScore := riskScore_of (txn_fraud_score txn) in
  let status := status_from (txn_is_fraud txn) riskScore in
  {| id := txn_id txn;
     date := toLocaleString (txn_transaction_date txn);
     cardNumber := "**** **** **** " ++ cardSuffix (txn_card_id txn);
     amount := amount;
     merchant := nullish (txn_merchant_name txn) "Unknown Merchant";
     location := nullish (txn_location txn) "Unknown";
     riskScore := riskScore;
     status := status |}.

Definition mapTransactions (data : option TransactionListApiResponse)
  : list TableTransaction :=
  match data with
  | None => []
  | Some d => List.map mapTransaction (transactions d)
  end.

Definition by_searchId (f : Filters) (l : list TableTransaction) :=
  match searchId f with
  | Some s =>
      if String.eqb s "" then l
      else List.filter
             (fun tx => includes (toLowerCase (id tx)) (toLowerCase s)) l
  | None => l
  end.

Definition by_status (f : Filters) (l : list TableTransaction) :=
  match active (status_filter f) with
  | Some s =>
      List.filter (fun tx => String.eqb (status_name (status tx)) s) l
  | None => l
  end.

Definition by_riskLevel (f : Filters) (l : list TableTransaction) :=
  match active (riskLevel f) with
  | Some r => List.filter (in_risk_range r) l
  | None => l
  end.

Definition filteredTransactions (f : Filters)
    (allTransactions : list TableTransaction) : list TableTransaction :=
  by_riskLevel f (by_status f (by_searchId f allTransactions)).

End Page.

(** The query parameter the page sends for the status filter: [is_fraud]
    is asked for when the filter is set and is not "all", and is [true]
    exactly for "fraudulent". *)
Definition queryParams (f : Filters) : option bool :=
  match active (status_filter f) with
  | Some s => Some (String.eqb s "fraudulent")
  | None => None
  end.

End Transactions.

(* ===================================================================== *)
(** * The transactions table component *)
(* ===================================================================== *)

Module TransactionsTable.

Definition itemsPerPage : Z := 10.

(** [Math.ceil(n / itemsPerPage)] for an array length [n]. *)
Definition totalPages {A : Type} (transactions : list A) : Z :=
  (Z.of_nat (List.length transactions) + itemsPerPage - 1) / itemsPerPage.

(** The relative index of [Array.prototype.slice]: a negative argument
    counts from the end, and both are clamped to [0, len]. *)
Definition relative_index (len k : Z) : Z :=
  if k <? 0 then Z.max (len + k) 0 else Z.min k len.

(** [l.slice(start, end)]. *)
Definition slice {A : Type} (l : list A) (start end_ : Z) : list A :=
  let len := Z.of_nat (List.length l) in
  let from := relative_index len start in
  let final := relative_index len end_ in
  firstn (Z.to_nat (final - from)) (skipn (Z.to_nat from) l).

(** The component's page state, [useState(1)]. *)
Record State : Type := { currentPage : Z }.

Definition initial : State := {| currentPage := 1 |}.

Definition startIndex (s : State) : Z := (currentPage s - 1) * itemsPerPage.
Definition endIndex (s : State) : Z := startIndex s + itemsPerPage.

Definition currentTransactions {A : Type} (transactions : list A) (s : State)
  : list A :=
  slice transactions (startIndex s) (endIndex s).

(** The Previous button: disabled on page 1, otherwise
    [setCurrentPage(p => Math.max(1, p - 1))]. *)
Definition click_prev (s : State) : State :=
  if currentPage s =? 1 then s
  else {| currentPage := Z.max 1 (currentPage s - 1) |}.

(** The Next button: disabled when [currentPage === totalPages], otherwise
    [setCurrentPage(p => Math.min(totalPages, p + 1))]. *)
Definition click_next {A : Type} (transactions : list A) (s : State) : State :=
  if currentPage s =? totalPages transactions then s
  else {| currentPage := Z.min (totalPages transactions) (currentPage s + 1) |}.

Inductive click : Type := Prev | Next.

Definition step {A : Type} (transactions : list A) (s : State) (c : click)
  : State :=
  match c with
  | Prev => click_prev s
  | Next => click_next transactions s
  end.

(** The state after a sequence of clicks on a freshly mounted table. *)
Definition run {A : Type} (transactions : list A) (clicks : list click)
  : State :=
  fold_left (step transactions) clicks initial.

(** The footer text "Showing a-b of n", as the three numbers. *)
Definition showing {A : Type} (transactions : list A) (s : State)
  : Z * Z * Z :=
  (startIndex s + 1,
   Z.min (endIndex s) (Z.of_nat (List.length transactions)),
   Z.of_nat (List.length transactions)).

(** The rows whose details are open, [useState<Record<string, boolean>>({})],
    keyed by transaction id (ids are UUIDs, never a property name of
    [Object.prototype]). *)
Abbreviation Expanded := (gmap string bool).

(** [!!expanded[id]]. *)
Definition is_expanded (expanded : Expanded) (id : string) : bool :=
  default false (expanded !! id).

(** The updater [prev => ({ ...prev, [id]: !prev[id] })] that the eye
    button hands to [setExpanded]. *)
Definition updated (id : string) (prev : Expanded) : Expanded :=
  <[id := negb (is_expanded prev id)]> prev.

(** What the eye button can change: the open rows, and what the parent's
    [onViewDetails] callback has been handed. *)
Record Details : Type := {
  expanded : Expanded;
  viewed : list string
}.

(** The eye button's [onClick].  [onViewDetails] tells whether the
    optional prop of that name was given:
    [if (onViewDetails) return onViewDetails(transaction.id);] comes
    first, and only without the prop is [setExpanded] reached. *)
Definition onClick (onViewDetails : bool) (id : string) (d : Details)
  : Details :=
  if onViewDetails
  then {| expanded := expanded d; viewed := viewed d ++ [id] |}
  else {| expanded := updated id (expanded d); viewed := viewed d |}.

(** What happens to a mounted table: a click on one of the two page
    buttons, or a render with another [transactions] prop (the data or the
    filters of the page changed).  [currentPage] is state of the
    component: it survives the render. *)
Inductive event (A : Type) : Type :=
| Click (c : click)
| Render (transactions : list A).
Arguments Click {A} c.
Arguments Render {A} transactions.

Definition on_event {A : Type} (t : list A * State) (e : event A)
  : list A * State :=
  match e with
  | Click c => (fst t, step (fst t) (snd t) c)
  | Render transactions => (transactions, snd t)
  end.

(** The list shown and the page state after a sequence of events on a
    table mounted with [transactions]. *)
Definition session {A : Type} (transactions : list A)
    (evs : list (event A)) : list A * State :=
  fold_left on_event evs (transactions, initial).

(** Every list rendered still has the page that is shown at that
    moment. *)
Fixpoint page_remains {A : Type} (t : list A * State)
    (evs : list (event A)) : Prop :=
  match evs with
  | [] => True
  | e :: evs' =>
      match e with
      | Click _ => True
      | Render transactions => currentPage (snd t) <= totalPages transactions
      end /\ page_remains (on_event t e) evs'
  end.

(** The page numbers [1 .. totalPages], as the states that show them. *)
Definition pages {A : Type} (transactions : list A) : list State :=
  List.map (fun i => {| currentPage := Z.of_nat i |})
           (seq 1 (Z.to_nat (totalPages transactions))).

End TransactionsTable.

(* ===================================================================== *)
(** * The browser: storage, location, events *)
(* ===================================================================== *)

Module Browser.

(** What the pages read and write outside React state. *)
Record World : Type := {
  localStorage : gmap string string;
  sessionStorage : gmap string string;
  location_hash : string;
  route : string;
  events : list string;
  console : list string
}.

Definition with_localStorage (m : gmap string string) (w : World) : World :=
  {| localStorage := m;
     sessionStorage := sessionStorage w;
     location_hash := location_hash w;
     route := route w;
     events := events w;
     console := console w |}.

Definition with_sessionStorage (m : gmap string string) (w : World) : World :=
  {| localStorage := localStorage w;
     sessionStorage := m;
     location_hash := location_hash w;
     route := route w;
     events := events w;
     console := console w |}.

(** The outcome of a statement: normal completion or a thrown exception. *)
Inductive outcome (A : Type) : Type :=
| Done (a : A)
| Thrown (e : string).
Arguments Done {A} a.
Arguments Thrown {A} e.

(** A computation on the world.  The world it leaves is kept when it
    throws: writes made before the exception stay. *)
Definition js (A : Type) : Type := World -> outcome A * World.

Definition ret {A : Type} (a : A) : js A := fun w => (Done a, w).

Definition bind {A B : Type} (m : js A) (k : A -> js B) : js B :=
  fun w =>
    match m w with
    | (Done a, w') => k a w'
    | (Thrown e, w') => (Thrown e, w')
    end.

Definition throw {A : Type} (e : string) : js A := fun w => (Thrown e, w).

(** [try { body } catch (e) { handler(e) }]. *)
Definition try_catch {A : Type} (body : js A) (handler : string -> js A)
  : js A :=
  fun w =>
    match body w with
    | (Done a, w') => (Done a, w')
    | (Thrown e, w') => handler e w'
    end.

(** [try { body } finally { final }]: [final] runs either way; the outcome
    is the body's unless [final] throws. *)
Definition try_finally {A : Type} (body : js A) (final : js unit) : js A :=
  fun w =>
    match body w with
    | (r, w') =>
        match final w' with
        | (Done _, w'') => (r, w'')
        | (Thrown e, w'') => (Thrown e, w'')
        end
    end.

Definition when (c : bool) (m : js unit) : js unit :=
  if c then m else ret tt.

#[global] Instance js_ret : MRet js := @ret.
#[global] Instance js_bind : MBind js := fun A B k m => bind m k.

(** [k || d] on the result of a lookup: [null] and the empty string are
    falsy. *)
Definition or_default (x : option string) (d : string) : string :=
  match x with
  | Some s => if String.eqb s "" then d else s
  | None => d
  end.

(** A string that is present and not empty. *)
Definition nonempty (x : option string) : bool :=
  match x with
  | Some s => negb (String.eqb s "")
  | None => false
  end.

Section Storage.

(** Whether the browser accepts a write into a storage area; when it does
    not (the quota is exceeded, storage is disabled), [setItem] throws. *)
Variable accepts : gmap string string -> string -> string -> bool.

Definition localStorage_setItem (k v : string) : js unit :=
  fun w =>
    if accepts (localStorage w) k v
    then (Done tt, with_localStorage (<[k := v]> (localStorage w)) w)
    else (Thrown "QuotaExceededError", w).

Definition sessionStorage_setItem (k v : string) : js unit :=
  fun w =>
    if accepts (sessionStorage w) k v
    then (Done tt, with_sessionStorage (<[k := v]> (sessionStorage w)) w)
    else (Thrown "QuotaExceededError", w).

End Storage.

Definition localStorage_getItem (k : string) : js (option string) :=
  fun w => (Done (localStorage w !! k), w).

Definition sessionStorage_getItem (k : string) : js (option string) :=
  fun w => (Done (sessionStorage w !! k), w).

Definition localStorage_removeItem (k : string) : js unit :=
  fun w => (Done tt, with_localStorage (delete k (localStorage w)) w).

(** [window.dispatchEvent(new Event(name))]. *)
Definition dispatchEvent (name : string) : js unit :=
  fun w =>
    (Done tt,
     {| localStorage := localStorage w;
        sessionStorage := sessionStorage w;
        location_hash := location_hash w;
        route := route w;
        events := events w ++ [name];
        console := console w |}).

Definition console_error (msg : string) : js unit :=
  fun w =>
    (Done tt,
     {| localStorage := localStorage w;
        sessionStorage := sessionStorage w;
        location_hash := location_hash w;
        route := route w;
        events := events w;
        console := console w ++ [msg] |}).

(** [window.history.replaceState({}, document.title, location.pathname)]:
    the URL keeps its path and loses its fragment. *)
Definition replaceState_pathname : js unit :=
  fun w =>
    (Done tt,
     {| localStorage := localStorage w;
        sessionStorage := sessionStorage w;
        location_hash := "";
        route := route w;
        events := events w;
        console := console w |}).

(** wouter's [setLocation(to)]. *)
Definition setLocation (to : string) : js unit :=
  fun w =>
    (Done tt,
     {| localStorage := localStorage w;
        sessionStorage := sessionStorage w;
        location_hash := location_hash w;
        route := to;
        events := events w;
        console := console w |}).

End Browser.

(* ===================================================================== *)
(** * The login page: the OAuth callback *)
(* ===================================================================== *)

Module Login.
Import Browser.

(** [hash.replace(/^#/, "")]. *)
Definition strip_hash (hash : string) : string :=
  match hash with
  | String "#"%char rest => rest
  | _ => hash
  end.

(** [params.get(name)]: the first value of that name, [null] when none. *)
Fixpoint params_get (params : list (string * string)) (name : string)
  : option string :=
  match params with
  | [] => None
  | (k, v) :: rest => if String.eqb k name then Some v else params_get rest name
  end.

Section Effect.

Variable accepts : gmap string string -> string -> string -> bool.

(** [new URLSearchParams(s)]: the name-value pairs of a query string. *)
Variable URLSearchParams : string -> list (string * string).

(** The writes of the [try] block. *)
Definition store_tokens (access refresh : string)
    (emailFromOAuth : option string) (nameFromOAuth : string) : js unit :=
  localStorage_setItem accepts "access_token" access;;
  localStorage_setItem accepts "refresh_token" refresh;;
  when (nonempty emailFromOAuth)
       (localStorage_setItem accepts "user_email" (or_default emailFromOAuth ""));;
  when (negb (String.eqb nameFromOAuth ""))
       (localStorage_setItem accepts "user_name" nameFromOAuth);;
  replaceState_pathname;;
  dispatchEvent "auth-changed";;
  setLocation "/".

(** The effect that handles the OAuth callback tokens of the fragment
    (in a browser, where [window] is defined). *)
Definition oauth_effect : js unit :=
  fun w =>
    let hash := strip_hash (location_hash w) in
    if String.eqb hash "" then (Done tt, w)
    else
      let params := URLSearchParams hash in
      let access := params_get params "access_token" in
      let refresh := params_get params "refresh_token" in
      let emailFromOAuth := params_get params "email" in
      let nameFromOAuth := or_default (params_get params "name") "User" in
      match access, refresh with
      | Some a, Some r =>
          if negb (String.eqb a "") && negb (String.eqb r "") then
            try_catch
              (store_tokens a r emailFromOAuth nameFromOAuth)
              (fun _ => console_error "Failed to store OAuth tokens")
              w
          else (Done tt, w)
      | _, _ => (Done tt, w)
      end.

End Effect.

End Login.

(* ===================================================================== *)
(** * The detection history page *)
(* ===================================================================== *)

Module History.
Import JS.

(** Modelled from the spec: a [PredictionResponse], whose TypeScript
    declaration (the API client module) is not among the sources; a flat
    record, with the fields the page reads. *)
Record PredictionResponse : Type := {
  prediction_id : string;
  transaction_id : string;
  timestamp_of : string;
  is_fraud : bool;
  fraud_probability : number;
  confidence_score : number;
  processing_time_ms : number;
  risk_level : string;
  model_version : string
}.

(** [PredictionHistory]; [predictions] may be missing. *)
Record PredictionHistory : Type := {
  predictions : option (list PredictionResponse);
  has_more : bool
}.

Record HistoryRecord : Type := {
  timestamp : string;
  transactionId : string;
  cardNumber : string;
  amount : number;
  result : Transactions.Status;
  confidence : number;
  processingTime : number;
  prediction : PredictionResponse
}.

Definition result_of (pred : PredictionResponse) : Transactions.Status :=
  if is_fraud pred then Transactions.fraudulent
  else if gt (fraud_probability pred) 0.5%float then Transactions.pending
  else Transactions.legitimate.

(** The line feed, ["\n"]. *)
Definition LF : string := String.String "010"%char EmptyString.

(** [row.join(sep)] on an array of strings. *)
Definition join (sep : string) (row : list string) : string :=
  String.concat sep row.

Definition header : list string :=
  ["Timestamp"; "Transaction ID"; "Card"; "Result"; "Confidence";
   "Processing Time"].

Section Page.

(** [new Date(s).toLocaleString()], [toUpperCase], [toLowerCase],
    [x.toFixed(1)] and [x.toString()] of the platform. *)
Variable toLocaleString : string -> string.
Variable toUpperCase : string -> string.
Variable toLowerCase : string -> string.
Variable toFixed1 : number -> string.
Variable Number_toString : number -> string.

Definition historyRecord (pred : PredictionResponse) : HistoryRecord :=
  {| timestamp := toLocaleString (timestamp_of pred);
     transactionId := toUpperCase (slice_first 8 (transaction_id pred));
     cardNumber := "**** " ++ slice_last 4 (transaction_id pred);
     amount := 0%float;
     result := result_of pred;
     confidence := PrimFloat.mul (confidence_score pred) 100%float;
     processingTime := processing_time_ms pred;
     prediction := pred |}.

Definition historyData (data : option PredictionHistory)
  : list HistoryRecord :=
  match data with
  | Some d =>
      match predictions d with
      | Some l => List.map historyRecord l
      | None => []
      end
  | None => []
  end.

Definition filteredData (searchTerm : string)
    (historyData : list HistoryRecord) : list HistoryRecord :=
  if String.eqb searchTerm "" then historyData
  else
    let term := toLowerCase searchTerm in
    List.filter
      (fun record =>
         includes (toLowerCase (transactionId record)) term
         || includes (cardNumber record) term)
      historyData.

(** The six cells of a record's row. *)
Definition row (record : HistoryRecord) : list string :=
  [timestamp record;
   transactionId record;
   cardNumber record;
   Transactions.status_name (result record);
   toFixed1 (confidence record);
   Number_toString (processingTime record)].

(** The text of the exported file. *)
Definition csv (filteredData : list HistoryRecord) : string :=
  join LF (List.map (join ",") (header :: List.map row filteredData)).

End Page.

(** The eye button of a row:
    [setExpanded(prev => ({ ...prev, [record.transactionId]:
    !prev[record.transactionId] }))], and [!!expanded[record.transactionId]]
    for the details row. *)
Definition details_open (expanded : gmap string bool)
    (record : HistoryRecord) : bool :=
  default false (expanded !! transactionId record).

Definition toggle_details (record : HistoryRecord)
    (expanded : gmap string bool) : gmap string bool :=
  <[transactionId record := negb (details_open expanded record)]> expanded.

(** ** Pages of the history: [page] starts at 0, [limit] is 20 *)

Definition limit : Z := 20.

Definition offset (page : Z) : Z := page * limit.

Inductive page_button : Type := Previous | Next.

(** One click.  The two buttons are rendered only while the response has
    more ([data && data.has_more]); Previous is disabled on page 0. *)
Definition click (has_more : bool) (page : Z) (b : page_button) : Z :=
  if has_more then
    match b with
    | Previous => if page =? 0 then page else Z.max 0 (page - 1)
    | Next => page + 1
    end
  else page.

(** The page after a sequence of clicks, each with the [has_more] of the
    response shown at that moment. *)
Definition page_after (clicks : list (page_button * bool)) : Z :=
  fold_left (fun page '(b, has_more) => click has_more page b) clicks 0.

End History.

(* ===================================================================== *)
(** * The analytics page: chart data *)
(* ===================================================================== *)

Module Analytics.

(** Modelled from the spec: a point of the fraud-trends response and an
    item of the merchant-category response, whose TypeScript declarations
    (the API client module) are not among the sources; flat records, with
    the fields the page reads.  The counts are integers. *)
Record FraudTrend : Type := {
  date : string;
  total_transactions : Z;
  fraud_transactions : Z
}.

Record MerchantCategory : Type := {
  category : string;
  transaction_count : Z;
  fraud_count : Z
}.

(** The objects handed to the line chart and to the bar chart. *)
Record TrendPoint : Type := {
  point_date : string;
  fraud : Z;
  legitimate : Z
}.

Record MerchantBar : Type := {
  bar_category : string;
  bar_fraud : Z;
  bar_legitimate : Z
}.

(** ** Arrays are objects: a heap of arrays, addressed by reference *)

Definition ref : Type := positive.

Section Arrays.

Context {A : Type}.

(** [a.slice()]: a new array with the same elements. *)
Definition Array_slice (a : ref) (h : gmap ref (list A))
  : ref * gmap ref (list A) :=
  let copy := fresh (dom h) in
  (copy, <[copy := default [] (h !! a)]> h).

(** One step of the sort: [x], which came before the elements of the
    sorted [l], goes in front of the first element it does not have to
    follow. *)
Fixpoint insert_sorted (compare : A -> A -> Z) (x : A) (l : list A)
  : list A :=
  match l with
  | [] => [x]
  | y :: l' =>
      if compare x y <=? 0 then x :: y :: l'
      else y :: insert_sorted compare x l'
  end.

(** The order [Array.prototype.sort] puts the elements in.  The sort is
    stable, so with a consistent comparator its result is the one stable
    arrangement in comparator order, whatever algorithm the engine runs;
    insertion from the right computes it. *)
Definition sorted_by (compare : A -> A -> Z) (l : list A) : list A :=
  fold_right (insert_sorted compare) [] l.

(** [a.sort(compare)]: sorts the array in place and returns it. *)
Definition Array_sort (compare : A -> A -> Z) (a : ref)
    (h : gmap ref (list A)) : ref * gmap ref (list A) :=
  (a, <[a := sorted_by compare (default [] (h !! a))]> h).

End Arrays.

Section Page.

(** [new Date(s).getTime()], [None] for an invalid date (NaN), and
    [toLocaleDateString("en-US", { month: "short", day: "numeric" })]. *)
Variable getTime : string -> option Z.
Variable toLocaleDateString : string -> string.

(** The comparator of the sort, the difference of the two times; the sort
    reads a NaN as 0. *)
Definition by_date (a b : FraudTrend) : Z :=
  match getTime (date a), getTime (date b) with
  | Some ta, Some tb => ta - tb
  | _, _ => 0
  end.

Definition trendPoint (trend : FraudTrend) : TrendPoint :=
  {| point_date := toLocaleDateString (date trend);
     fraud := fraud_transactions trend;
     legitimate := total_transactions trend - fraud_transactions trend |}.

(** [trendsData?.trends.slice().sort(...).map(...) || []], on the heap
    that holds the [trends] array of the response. *)
Definition fraudTrendsData (trends : option ref)
    (h : gmap ref (list FraudTrend))
  : list TrendPoint * gmap ref (list FraudTrend) :=
  match trends with
  | None => ([], h)
  | Some a =>
      let '(copy, h1) := Array_slice a h in
      let '(sorted, h2) := Array_sort by_date copy h1 in
      (List.map trendPoint (default [] (h2 !! sorted)), h2)
  end.

Definition merchantBar (item : MerchantCategory) : MerchantBar :=
  {| bar_category := category item;
     bar_fraud := fraud_count item;
     bar_legitimate := transaction_count item - fraud_count item |}.

(** [merchantData?.map(...) || []]. *)
Definition merchantChartData (merchantData : option (list MerchantCategory))
  : list MerchantBar :=
  match merchantData with
  | Some l => List.map merchantBar l
  | None => []
  end.

End Page.

End Analytics.

(* ===================================================================== *)
(** * The settings page *)
(* ===================================================================== *)

Module Settings.
Import JS Browser.

(** The five pieces of React state.  [setCurrency] is handed whatever
    truthy value the stored settings hold, so [currency] is a value. *)
Record State : Type := {
  currency : value;
  showFeatureImportance : bool;
  historyItems : number;
  autoRefresh : bool;
  refreshSec : number
}.

(** The [useState] defaults. *)
Definition defaults : State :=
  {| currency := String "INR";
     showFeatureImportance := true;
     historyItems := 20%float;
     autoRefresh := true;
     refreshSec := 60%float |}.

Definition setCurrency (v : value) (st : State) : State :=
  {| currency := v;
     showFeatureImportance := showFeatureImportance st;
     historyItems := historyItems st;
     autoRefresh := autoRefresh st;
     refreshSec := refreshSec st |}.

Definition setShowFeatureImportance (b : bool) (st : State) : State :=
  {| currency := currency st;
     showFeatureImportance := b;
     historyItems := historyItems st;
     autoRefresh := autoRefresh st;
     refreshSec := refreshSec st |}.

Definition setHistoryItems (x : number) (st : State) : State :=
  {| currency := currency st;
     showFeatureImportance := showFeatureImportance st;
     historyItems := x;
     autoRefresh := autoRefresh st;
     refreshSec := refreshSec st |}.

Definition setAutoRefresh (b : bool) (st : State) : State :=
  {| currency := currency st;
     showFeatureImportance := showFeatureImportance st;
     historyItems := historyItems st;
     autoRefresh := b;
     refreshSec := refreshSec st |}.

Definition setRefreshSec (x : number) (st : State) : State :=
  {| currency := currency st;
     showFeatureImportance := showFeatureImportance st;
     historyItems := historyItems st;
     autoRefresh := autoRefresh st;
     refreshSec := x |}.

(** The object [next] that [save] serialises. *)
Definition next (st : State) : value :=
  Object
    [("ui",
      Object [("currency", currency st);
              ("showFeatureImportance", Bool (showFeatureImportance st))]);
     ("history",
      Object [("itemsPerPage", Number (historyItems st));
              ("autoRefresh", Bool (autoRefresh st));
              ("refreshSec", Number (refreshSec st))])].

Section Page.

Variable accepts : gmap string string -> string -> string -> bool.

(** [JSON.stringify] and [JSON.parse] ([None]: it throws a SyntaxError),
    and the conversions behind [Number(v)]. *)
Variable JSON_stringify : value -> string.
Variable JSON_parse : string -> option value.
Variable StringToNumber : string -> number.
Variable ObjectToNumber : value -> number.

(** The body of the [try] of the load effect, on the parsed settings. *)
Definition apply_settings (s : value) (st : State) : State :=
  let ui := get s "ui" in
  let history := get s "history" in
  let st :=
    if truthy (get ui "currency")
    then setCurrency (get ui "currency") st else st in
  let st :=
    match get ui "showFeatureImportance" with
    | Bool b => setShowFeatureImportance b st
    | _ => st
    end in
  let st :=
    if truthy (get history "itemsPerPage")
    then setHistoryItems
           (ToNumber StringToNumber ObjectToNumber (get history "itemsPerPage"))
           st
    else st in
  let st :=
    match get history "autoRefresh" with
    | Bool b => setAutoRefresh b st
    | _ => st
    end in
  if truthy (get history "refreshSec")
  then setRefreshSec
         (ToNumber StringToNumber ObjectToNumber (get history "refreshSec"))
         st
  else st.

(** The load effect: it reads local storage and calls the setters; when
    [JSON.parse] throws, the empty [catch] leaves the state as it is. *)
Definition load (w : World) (st : State) : State :=
  match JSON_parse (or_default (localStorage w !! "settings") "{}") with
  | Some s => apply_settings s st
  | None => st
  end.

Definition save (st : State) : js unit :=
  localStorage_setItem accepts "settings" (JSON_stringify (next st));;
  dispatchEvent "settings-changed".


End Page.

Section Form.

Variable StringToNumber : string -> number.
Variable ObjectToNumber : value -> number.

(** What the user does on the form: the value of the currency select and
    of the items-per-page select (one of their options), the two
    checkboxes and the text of the refresh-interval input. *)
Inductive edit : Type :=
| ChangeCurrency (text : string)
| CheckFeatureImportance (checked : bool)
| ChangeItemsPerPage (text : string)
| CheckAutoRefresh (checked : bool)
| ChangeRefreshSec (text : string).

Definition currency_options : list string := ["INR"; "USD"].
Definition itemsPerPage_options : list string := ["10"; "20"; "50"].

(** An edit the form can produce: the selects only hold their options. *)
Definition offered (e : edit) : Prop :=
  match e with
  | ChangeCurrency text => In text currency_options
  | ChangeItemsPerPage text => In text itemsPerPage_options
  | _ => True
  end.

(** The [onChange] handlers; the refresh interval falls back to 60:
    [setRefreshSec(Number(e.target.value) || 60)]. *)
Definition onChange (e : edit) (st : State) : State :=
  match e with
  | ChangeCurrency text => setCurrency (String text) st
  | CheckFeatureImportance checked => setShowFeatureImportance checked st
  | ChangeItemsPerPage text =>
      setHistoryItems
        (ToNumber StringToNumber ObjectToNumber (String text)) st
  | CheckAutoRefresh checked => setAutoRefresh checked st
  | ChangeRefreshSec text =>
      let x := ToNumber StringToNumber ObjectToNumber (String text) in
      setRefreshSec (if number_truthy x then x else 60%float) st
  end.

(** The form's state after a sequence of edits on a fresh page. *)
Definition edited (edits : list edit) : State :=
  fold_left (fun st e => onChange e st) edits defaults.


End Form.

End Settings.

(* ===================================================================== *)
(** * A JSON codec to run the pages on concrete storage contents *)
(* ===================================================================== *)

(** The pages are stated over any [JSON.stringify] and [JSON.parse].  This
    codec prints a finite number by its exact decimal expansion and escapes
    the quote, the backslash and the line feed of a string; it reads the
    JSON texts whose numbers are integers written without fraction or
    exponent and whose strings use those three escapes, and answers [None]
    on other texts. *)
Module JSONText.
Import JS.

Definition digit (n : N) : ascii := ascii_of_N (48 + n).

(** The double quote. *)
Definition dquote : ascii := "034"%char.

Fixpoint digits (fuel : nat) (n : N) (acc : string) : string :=
  match fuel with
  | O => acc
  | S fuel' =>
      let acc' := String.String (digit (n mod 10)) acc in
      if (n / 10 =? 0)%N then acc' else digits fuel' (n / 10)%N acc'
  end.

Definition decimal (z : Z) : string :=
  String.append
    (if z <? 0 then "-" else "")
    (digits (S (N.to_nat (N.size (Z.abs_N z)))) (Z.abs_N z) "").

(** The exact decimal expansion of [n / 2^k] for an odd [n] and [k > 0]:
    the digits of [n * 5^k] with the point before the last [k]. *)
Definition fraction (n : N) (k : nat) : string :=
  let ds := digits (S (N.to_nat (N.size (n * 5 ^ N.of_nat k))))
                   (n * 5 ^ N.of_nat k)%N "" in
  let ds := String.append
              (String.concat "" (repeat "0" (S k - String.length ds)))
              ds in
  String.append
    (String.substring 0 (String.length ds - k) ds)
    (String.append "." (String.substring (String.length ds - k) k ds)).

(** A finite number in decimal; [None] for NaN and the infinities. *)
Definition number_text (x : number) : option string :=
  match Prim2SF x with
  | S754_zero _ => Some "0"
  | S754_finite s m e =>
      let sign := if s then "-" else "" in
      if 0 <=? e then Some (String.append sign (decimal (Zpos m * 2 ^ e)))
      else
        let twos := Z.log2 (Z.land (Zpos m) (- Zpos m)) in
        if - e <=? twos
        then Some (String.append sign (decimal (Zpos m / 2 ^ (- e))))
        else Some (String.append sign
                     (fraction (Z.to_N (Zpos m / 2 ^ twos))
                               (Z.to_nat (- e - twos))))
  | _ => None
  end.

Fixpoint escape (s : string) : string :=
  match s with
  | EmptyString => EmptyString
  | String.String c s' =>
      if Ascii.eqb c dquote
      then String.String "\" (String.String dquote (escape s'))
      else if Ascii.eqb c "\" then String.String "\" (String.String "\" (escape s'))
      else if Ascii.eqb c "010" then String.String "\" (String.String "n" (escape s'))
      else String.String c (escape s')
  end.

Definition quote (s : string) : string :=
  (String.String dquote (escape s) ++ String.String dquote EmptyString)%string.

(** [JSON.stringify]: a property whose value is [undefined] is left out,
    an [undefined] element and a number that is not finite print as
    [null]. *)
Fixpoint stringify (v : value) : string :=
  match v with
  | Undefined | Null => "null"
  | Bool b => if b then "true" else "false"
  | Number x => default "null" (number_text x)
  | String s => quote s
  | Array elems =>
      ("[" ++ String.concat "," (List.map stringify elems) ++ "]")%string
  | Object props =>
      ("{" ++
       String.concat ","
         ((fix members (ps : list (string * value)) : list string :=
             match ps with
             | [] => []
             | (k, v') :: ps' =>
                 match v' with
                 | Undefined => members ps'
                 | _ => (quote k ++ ":" ++ stringify v')%string :: members ps'
                 end
             end) props)
       ++ "}")%string
  end.

Definition is_space (c : ascii) : bool :=
  Ascii.eqb c " " || Ascii.eqb c "009" || Ascii.eqb c "010" || Ascii.eqb c "013".

Fixpoint skip_space (s : string) : string :=
  match s with
  | String.String c s' => if is_space c then skip_space s' else s
  | EmptyString => s
  end.

(** The rest of [s] after the literal [lit], if [s] starts with it. *)
Fixpoint after (lit s : string) : option string :=
  match lit, s with
  | EmptyString, _ => Some s
  | String.String a lit', String.String b s' =>
      if Ascii.eqb a b then after lit' s' else None
  | _, EmptyString => None
  end.

(** The characters of a string literal after its opening quote, and the
    text after its closing quote. *)
Fixpoint string_body (s : string) : option (string * string) :=
  match s with
  | EmptyString => None
  | String.String c s' =>
      if Ascii.eqb c dquote then Some (EmptyString, s')
      else if Ascii.eqb c "\" then
        match s' with
        | String.String e s'' =>
            let unescaped :=
              if Ascii.eqb e dquote then Some dquote
              else if Ascii.eqb e "\" then Some "\"%char
              else if Ascii.eqb e "n" then Some "010"%char
              else None in
            match unescaped, string_body s'' with
            | Some u, Some (t, rest) => Some (String.String u t, rest)
            | _, _ => None
            end
        | EmptyString => None
        end
      else
        match string_body s' with
        | Some (t, rest) => Some (String.String c t, rest)
        | None => None
        end
  end.

Definition is_digit (c : ascii) : bool :=
  (48 <=? N_of_ascii c)%N && (N_of_ascii c <=? 57)%N.

(** A run of digits read as a natural number, and the text after it;
    [None] when the text does not start with a digit. *)
Fixpoint natural (s : string) (acc : option N) : option (N * string) :=
  match s with
  | String.String c s' =>
      if is_digit c
      then natural s' (Some (10 * default 0%N acc + (N_of_ascii c - 48))%N)
      else option_map (fun n => (n, s)) acc
  | EmptyString => option_map (fun n => (n, s)) acc
  end.

(** An integer literal; a fraction or an exponent after it is refused. *)
Definition integer (s : string) : option (value * string) :=
  let '(negative, s') :=
    match after "-" s with Some s' => (true, s') | None => (false, s) end in
  match natural s' None with
  | Some (n, rest) =>
      match rest with
      | String.String c _ =>
          if Ascii.eqb c "." || Ascii.eqb c "e" || Ascii.eqb c "E" then None
          else Some (Number (of_Z (if negative then - Z.of_N n else Z.of_N n)),
                     rest)
      | EmptyString =>
          Some (Number (of_Z (if negative then - Z.of_N n else Z.of_N n)),
                rest)
      end
  | None => None
  end.

Fixpoint value_at (fuel : nat) (s : string) : option (value * string) :=
  match fuel with
  | O => None
  | S fuel' =>
      match skip_space s with
      | EmptyString => None
      | String.String c s' as s0 =>
          if Ascii.eqb c "n" then option_map (pair Null) (after "null" s0)
          else if Ascii.eqb c "t"
          then option_map (pair (Bool true)) (after "true" s0)
          else if Ascii.eqb c "f"
          then option_map (pair (Bool false)) (after "false" s0)
          else if Ascii.eqb c dquote then
            option_map (fun '(t, rest) => (String t, rest)) (string_body s')
          else if Ascii.eqb c "[" then
            match skip_space s' with
            | String.String "]" rest => Some (Array [], rest)
            | _ =>
                option_map (fun '(l, rest) => (Array l, rest))
                           (elements_at fuel' s')
            end
          else if Ascii.eqb c "{" then
            match skip_space s' with
            | String.String "}" rest => Some (Object [], rest)
            | _ =>
                option_map (fun '(l, rest) => (Object l, rest))
                           (members_at fuel' s')
            end
          else integer s0
      end
  end

with elements_at (fuel : nat) (s : string) : option (list value * string) :=
  match fuel with
  | O => None
  | S fuel' =>
      match value_at fuel' s with
      | Some (v, rest) =>
          match skip_space rest with
          | String.String "," rest' =>
              option_map (fun '(l, r) => (v :: l, r)) (elements_at fuel' rest')
          | String.String "]" rest' => Some ([v], rest')
          | _ => None
          end
      | None => None
      end
  end

with members_at (fuel : nat) (s : string)
  : option (list (string * value) * string) :=
  match fuel with
  | O => None
  | S fuel' =>
      match skip_space s with
      | String.String c s' =>
          match (if Ascii.eqb c dquote then string_body s' else None) with
          | Some (k, rest) =>
              match skip_space rest with
              | String.String ":" rest' =>
                  match value_at fuel' rest' with
                  | Some (v, rest'') =>
                      match skip_space rest'' with
                      | String.String "," r =>
                          option_map (fun '(l, r') => ((k, v) :: l, r'))
                                     (members_at fuel' r)
                      | String.String "}" r => Some ([(k, v)], r)
                      | _ => None
                      end
                  | None => None
                  end
              | _ => None
              end
          | None => None
          end
      | _ => None
      end
  end.

(** [JSON.parse]: one value and nothing but white space after it. *)
Definition parse (s : string) : option value :=
  match value_at (2 * String.length s + 2) s with
  | Some (v, rest) =>
      match skip_space rest with
      | EmptyString => Some v
      | _ => None
      end
  | None => None
  end.

End JSONText.

(* ===================================================================== *)
(** * Automatic seeding of demo data (Transactions page and Dashboard) *)
(* ===================================================================== *)

Module Seeding.
Import Browser.

(** The requests the two effects await. *)
Inductive request : Type :=
| SeedTransactions (count : Z)
| Refetch
| FetchTransactions (limit : Z)
| CreateBatchPredictions (transaction_ids : list string).

(** How an awaited promise settles; a fulfilled [fetchTransactions]
    brings the ids of the transactions. *)
Inductive response : Type :=
| Fulfilled (ids : list string)
| Rejected.

(** An async function between two awaits: it has returned, or it has
    issued a request and waits for the response to go on. *)
#[warnings="-register-all"]
Inductive task : Type :=
| Return
| Await (r : request) (resume : response -> World -> task * World).

(** [(typeof window !== "undefined" && localStorage.getItem("user_email"))
    || "anon"], in the key [`seeded_demo_${userKeyPart}`]. *)
Definition seededKey (w : World) : string :=
  String.append "seeded_demo_" (or_default (localStorage w !! "user_email") "anon").

(** [!sessionStorage.getItem(seededKey)]. *)
Definition not_seeded (w : World) : bool :=
  negb (nonempty (sessionStorage w !! seededKey w)).

(** What the Transactions page's effect reads from its query. *)
Record TransactionsQuery : Type := {
  isLoading : bool;
  isFetching : bool;
  isError : bool;
  count : nat
}.

(** What the Dashboard's effect reads: the metrics' total, when the
    metrics are loaded, and the number of recent predictions. *)
Record DashboardQueries : Type := {
  metrics : option Z;
  predictions_length : nat
}.

Section Effects.

Variable accepts : gmap string string -> string -> string -> bool.

(** The [catch] and [finally] of the seeding [try], run when the seed
    request settles: a failure is logged, the marker is set either way,
    and [after] is what follows the [try] statement.  When [setItem]
    throws, the async function ends there. *)
Definition seed_settled (message : string) (seededKey : string)
    (after : World -> task * World) (r : response) (w : World)
  : task * World :=
  let w1 :=
    match r with
    | Fulfilled _ => w
    | Rejected => snd (console_error message w)
    end in
  match sessionStorage_setItem accepts seededKey "1" w1 with
  | (Done _, w2) => after w2
  | (Thrown _, w2) => (Return, w2)
  end.

(** The Transactions page's effect, run with the query state of a render. *)
Definition transactions_effect (q : TransactionsQuery) (w : World)
  : task * World :=
  if isLoading q || isFetching q || isError q then (Return, w)
  else if (0 <? count q)%nat then (Return, w)
  else if not_seeded w then
    (Await (SeedTransactions 30)
       (seed_settled "Failed to auto-seed demo data" (seededKey w)
          (fun w' => (Await Refetch (fun _ w'' => (Return, w'')), w'))),
     w)
  else (Return, w).

(** The second half of the Dashboard's effect: with no recent prediction,
    fetch the latest transactions and ask for a batch of predictions; the
    [catch] around the two awaits warns on the console. *)
Definition populate_alerts (q : DashboardQueries) (w : World)
  : task * World :=
  if (0 <? predictions_length q)%nat then (Return, w)
  else
    (Await (FetchTransactions 20)
       (fun r w' =>
          match r with
          | Fulfilled ids =>
              match firstn 20 ids with
              | [] => (Return, w')
              | ids' =>
                  (Await (CreateBatchPredictions ids')
                     (fun r' w'' =>
                        match r' with
                        | Fulfilled _ => (Return, w'')
                        | Rejected =>
                            (Return,
                             snd (console_error
                                    "Dashboard batch predictions seed skipped"
                                    w''))
                        end),
                   w')
              end
          | Rejected =>
              (Return,
               snd (console_error "Dashboard batch predictions seed skipped"
                                  w'))
          end),
     w).

(** The Dashboard's effect. *)
Definition dashboard_effect (q : DashboardQueries) (w : World)
  : task * World :=
  match metrics q with
  | None => (Return, w)
  | Some totalTx =>
      if (totalTx =? 0) && not_seeded w then
        (Await (SeedTransactions 30)
           (seed_settled "Dashboard auto-seed failed" (seededKey w)
              (populate_alerts q)),
         w)
      else populate_alerts q w
  end.

(** ** The session: effect runs interleave at their awaits *)

(** The world, the number of seed requests issued so far, and the async
    functions waiting for a response. *)
Record Session : Type := {
  world : World;
  seed_requests : nat;
  waiting : list (response -> World -> task * World)
}.

Definition start (w : World) : Session :=
  {| world := w; seed_requests := 0; waiting := [] |}.

Definition is_seed (r : request) : nat :=
  match r with SeedTransactions _ => 1 | _ => 0 end.

(** A piece of an async function has run up to its next await or to its
    end. *)
Definition suspend (s : Session) (rest : list (response -> World -> task * World))
    (tw : task * World) : Session :=
  match tw with
  | (Return, w) =>
      {| world := w; seed_requests := seed_requests s; waiting := rest |}
  | (Await r resume, w) =>
      {| world := w;
         seed_requests := seed_requests s + is_seed r;
         waiting := rest ++ [resume] |}
  end.

Inductive event : Type :=
| RenderTransactions (q : TransactionsQuery)
| RenderDashboard (q : DashboardQueries)
| Settle (i : nat) (r : response).

(** One turn of the event loop: an effect runs after a render, or the
    [i]-th waiting function gets its response. *)
Definition turn (s : Session) (e : event) : Session :=
  match e with
  | RenderTransactions q =>
      suspend s (waiting s) (transactions_effect q (world s))
  | RenderDashboard q =>
      suspend s (waiting s) (dashboard_effect q (world s))
  | Settle i r =>
      match waiting s !! i with
      | Some resume =>
          suspend s (firstn i (waiting s) ++ skipn (S i) (waiting s))
                  (resume r (world s))
      | None => s
      end
  end.

Definition run (w : World) (events : list event) : Session :=
  fold_left turn events (start w).

End Effects.

End Seeding.

(* ===================================================================== *)
(** * Properties *)
(* ===================================================================== *)

Module TransactionsProps.
Import JS Transactions.

Definition risk_level_eqb (a b : risk_level) : bool :=
  match a, b with
  | high, high | medium, medium | low, low => true
  | _, _ => false
  end.

Lemma risk_level_eqb_eq a b : risk_level_eqb a b = true <-> a = b.
Proof. destruct a, b; simpl; split; congruence. Qed.

(** A risk score that is an integer of [0, 100]. *)
Definition integer_score (x : number) : Prop :=
  exists n : Z, 0 <= n <= 100 /\ x = of_Z n.

(** The range test of the filter, on the score alone. *)
Definition score_in_range (level : string) (x : number) : bool :=
  ge x (fst (riskMap level)) && le x (snd (riskMap level)).

Lemma in_risk_range_score level tx :
  in_risk_range level tx = score_in_range level (riskScore tx).
Proof.
  unfold in_risk_range, score_in_range.
  destruct (riskMap level); reflexivity.
Qed.

(** The filter and the badge compared at one integer score, for the three
    levels. *)
Definition agree_at (n : Z) : bool :=
  forallb
    (fun r => Bool.eqb (score_in_range (risk_level_name r) (of_Z n))
                       (risk_level_eqb (getRiskLevel (of_Z n)) r))
    [high; medium; low].

Lemma agree_upto_100 :
  forallb agree_at (List.map Z.of_nat (seq 0 101)) = true.
Proof. vm_compute. reflexivity. Qed.

Lemma score_in_range_badge r x :
  integer_score x ->
  score_in_range (risk_level_name r) x = true <-> getRiskLevel x = r.
Proof.
  intros (n & Hn & ->).
  pose proof agree_upto_100 as H.
  rewrite forallb_forall in H.
  specialize (H n).
  assert (Hin : In n (List.map Z.of_nat (seq 0 101))).
  { apply in_map_iff. exists (Z.to_nat n). split; [lia|].
    apply in_seq. lia. }
  specialize (H Hin). unfold agree_at in H.
  rewrite forallb_forall in H.
  assert (Hr : In r [high; medium; low]) by (destruct r; simpl; auto).
  specialize (H r Hr). apply Bool.eqb_prop in H.
  rewrite H. apply risk_level_eqb_eq.
Qed.

Lemma active_level r : active (Some (risk_level_name r)) = Some (risk_level_name r).
Proof. destruct r; reflexivity. Qed.

Lemma riskScore_of_truthy x :
  number_truthy x = true ->
  riskScore_of (Present x) = Math_round (PrimFloat.mul x 100%float).
Proof. intros H. simpl. rewrite H. reflexivity. Qed.

Lemma riskScore_of_zero x :
  PrimFloat.eqb x 0%float = true -> riskScore_of (Present x) = 0%float.
Proof. intros H. simpl. unfold number_truthy. rewrite H. reflexivity. Qed.

Lemma status_from_cases is_fraud score :
  (status_from is_fraud score = fraudulent <-> is_fraud = true) /\
  (status_from is_fraud score = pending <->
     is_fraud = false /\ gt score 60%float = true) /\
  (status_from is_fraud score = legitimate <->
     is_fraud = false /\ gt score 60%float = false).
Proof.
  unfold status_from.
  destruct is_fraud, (gt score 60%float); intuition congruence.
Qed.

Section Page.

Variable StringToNumber : string -> number.
Variable ObjectToNumber : value -> number.
Variable toLocaleString : string -> string.
Variable toLowerCase : string -> string.

(** C1. Every transaction of the list response is mapped, in order, to a
    row whose risk score is [Math.round(fraud_score * 100)] when the score
    is truthy and 0 otherwise (so 0 for a missing, null or zero score), and
    whose status is "fraudulent" exactly when [is_fraud] is true, otherwise
    "pending" exactly when the risk score is greater than 60, otherwise
    "legitimate". *)
Theorem mapTransactions_status (data : TransactionListApiResponse) :
  Forall2
    (fun txn tx =>
       riskScore tx = riskScore_of (txn_fraud_score txn) /\
       (status tx = fraudulent <-> txn_is_fraud txn = true) /\
       (status tx = pending <->
          txn_is_fraud txn = false /\ gt (riskScore tx) 60%float = true) /\
       (status tx = legitimate <->
          txn_is_fraud txn = false /\ gt (riskScore tx) 60%float = false))
    (transactions data)
    (mapTransactions StringToNumber ObjectToNumber toLocaleString
       (Some data))
  /\ riskScore_of Absent = 0%float
  /\ riskScore_of IsNull = 0%float
  /\ (forall x, PrimFloat.eqb x 0%float = true ->
        riskScore_of (Present x) = 0%float)
  /\ (forall x, number_truthy x = true ->
        riskScore_of (Present x) = Math_round (PrimFloat.mul x 100%float)).
Proof.
  split; [|repeat split; auto using riskScore_of_zero, riskScore_of_truthy].
  simpl. induction (transactions data) as [|txn l IH]; simpl; constructor; auto.
  split; [reflexivity|]. apply status_from_cases.
Qed.

(** C2. For a transaction whose risk score is an integer of [0, 100] and
    each of the three levels r: the range test of the risk filter for r
    holds exactly when the badge classifier [getRiskLevel] gives r.  So
    with the risk-level filter on r the page shows the transaction exactly
    when it passes the search and status filters and its badge is r; with
    no other filter set, exactly when it is in the table and its badge is
    r. *)
Theorem risk_filter_agrees_with_badge
    (f : Filters) (r : risk_level) (all : list TableTransaction)
    (tx : TableTransaction) :
  riskLevel f = Some (risk_level_name r) ->
  integer_score (riskScore tx) ->
  (in_risk_range (risk_level_name r) tx = true <->
   getRiskLevel (riskScore tx) = r) /\
  (In tx (filteredTransactions toLowerCase f all) <->
   In tx (by_status f (by_searchId toLowerCase f all)) /\
   getRiskLevel (riskScore tx) = r) /\
  (searchId f = None -> active (status_filter f) = None ->
   (In tx (filteredTransactions toLowerCase f all) <->
    In tx all /\ getRiskLevel (riskScore tx) = r)).
Proof.
  intros Hf Hint.
  assert (Hbadge : in_risk_range (risk_level_name r) tx = true <->
                   getRiskLevel (riskScore tx) = r).
  { rewrite in_risk_range_score. apply score_in_range_badge, Hint. }
  assert (Hshown : In tx (filteredTransactions toLowerCase f all) <->
                   In tx (by_status f (by_searchId toLowerCase f all)) /\
                   getRiskLevel (riskScore tx) = r).
  { unfold filteredTransactions, by_riskLevel at 1.
    rewrite Hf, active_level, filter_In, Hbadge. reflexivity. }
  split; [exact Hbadge|]. split; [exact Hshown|].
  intros Hsearch Hstatus. rewrite Hshown.
  unfold by_status, by_searchId. rewrite Hsearch, Hstatus. reflexivity.
Qed.

End Page.

End TransactionsProps.

Module TransactionsTableProps.
Import TransactionsTable.

Section Table.

Context {A : Type}.
Variable transactions : list A.

Let n := Z.of_nat (List.length transactions).

Lemma relative_index_window (len k : Z) :
  0 <= len ->
  0 <= relative_index len (k + itemsPerPage) - relative_index len k <= itemsPerPage
  \/ relative_index len (k + itemsPerPage) <= relative_index len k.
Proof.
  intros Hlen. unfold relative_index, itemsPerPage.
  destruct (Z.ltb_spec k 0), (Z.ltb_spec (k + 10) 0); lia.
Qed.

(** A page never shows more than ten rows, whatever the page number. *)
Lemma page_shows_at_most_ten (s : State) :
  (List.length (currentTransactions transactions s) <= 10)%nat.
Proof.
  unfold currentTransactions, slice, endIndex.
  rewrite length_firstn.
  pose proof (relative_index_window
                (Z.of_nat (List.length transactions)) (startIndex s)
                (Nat2Z.is_nonneg _)) as H.
  unfold itemsPerPage in *. lia.
Qed.

(** From page 1 on, the page is the slice from [(p-1)*10] to
    [min (p*10) n]: the ten rows after the first [(p-1)*10], or as many as
    are left. *)
Lemma page_is_slice (s : State) :
  1 <= currentPage s ->
  currentTransactions transactions s =
    firstn (Z.to_nat (Z.min (currentPage s * 10) n - (currentPage s - 1) * 10))
           (skipn (Z.to_nat ((currentPage s - 1) * 10)) transactions)
  /\ currentTransactions transactions s =
    firstn 10 (skipn (Z.to_nat ((currentPage s - 1) * 10)) transactions).
Proof.
  intros Hp. unfold currentTransactions, slice, endIndex, startIndex.
  unfold relative_index, itemsPerPage. fold n.
  destruct (Z.ltb_spec ((currentPage s - 1) * 10) 0); [lia|].
  destruct (Z.ltb_spec ((currentPage s - 1) * 10 + 10) 0); [lia|].
  assert (Hn : 0 <= n) by (subst n; lia).
  destruct (Z_le_gt_dec n ((currentPage s - 1) * 10)) as [Hge|Hlt].
  - (* past the end: nothing is left *)
    rewrite (skipn_all2 transactions) by (subst n; lia).
    rewrite (skipn_all2 transactions) by (subst n; lia).
    rewrite !firstn_nil. auto.
  - rewrite (Z.min_l ((currentPage s - 1) * 10) n) by lia.
    split.
    + f_equal. f_equal. lia.
    + destruct (Z_le_gt_dec ((currentPage s - 1) * 10 + 10) n).
      * f_equal. lia.
      * rewrite (Z.min_r _ n) by lia.
        rewrite !firstn_all2; auto; rewrite length_skipn; subst n; lia.
Qed.

Lemma totalPages_pos : transactions <> [] -> 1 <= totalPages transactions.
Proof.
  intros Hne. unfold totalPages, itemsPerPage.
  destruct transactions as [|a l]; [congruence|].
  apply Z.div_le_lower_bound; simpl List.length; lia.
Qed.

Lemma step_in_range (s : State) (c : click) :
  1 <= currentPage s <= totalPages transactions ->
  1 <= currentPage (step transactions s c) <= totalPages transactions.
Proof.
  intros H. destruct c; simpl.
  - unfold click_prev. destruct (Z.eqb_spec (currentPage s) 1); simpl; lia.
  - unfold click_next.
    destruct (Z.eqb_spec (currentPage s) (totalPages transactions));
      simpl; lia.
Qed.

(** On a table with at least one row the Previous and Next buttons keep
    the page within [1, totalPages]. *)
Lemma pages_stay_in_range (clicks : list click) :
  transactions <> [] ->
  1 <= currentPage (run transactions clicks) <= totalPages transactions.
Proof.
  intros Hne. unfold run.
  assert (H0 : 1 <= currentPage initial <= totalPages transactions).
  { pose proof (totalPages_pos Hne). simpl. lia. }
  revert H0. generalize initial.
  induction clicks as [|c cs IH]; intros s Hs; simpl; [exact Hs|].
  apply IH, step_in_range, Hs.
Qed.

End Table.

(** C3. On an empty table the Next button is enabled (page 1 is not page
    [totalPages = 0]) and a click on it sets the page to
    [Math.min(0, 2) = 0]: the page leaves [1, totalPages], the slice is
    computed from the start index -10 and the footer reads
    "Showing -9-0 of 0". *)
Theorem next_on_empty_table :
  totalPages (@nil Transactions.TableTransaction) = 0 /\
  click_next (@nil Transactions.TableTransaction) initial <> initial /\
  currentPage (run (@nil Transactions.TableTransaction) [Next]) = 0 /\
  startIndex (run (@nil Transactions.TableTransaction) [Next]) = -10 /\
  showing (@nil Transactions.TableTransaction)
          (run (@nil Transactions.TableTransaction) [Next]) = (-9, 0, 0).
Proof. repeat split; try reflexivity. discriminate. Qed.

End TransactionsTableProps.

Module LoginProps.
Import Browser Login.

Section Effect.

Variable accepts : gmap string string -> string -> string -> bool.
Variable URLSearchParams : string -> list (string * string).

(** The value of a parameter of the URL fragment, [None] when the fragment
    does not have it. *)
Definition fragment_param (w : World) (name : string) : option string :=
  params_get (URLSearchParams (strip_hash (location_hash w))) name.

Lemma oauth_effect_absent (w : World) :
  fragment_param w "access_token" = None \/
  fragment_param w "refresh_token" = None ->
  oauth_effect accepts URLSearchParams w = (Done tt, w).
Proof.
  unfold fragment_param, oauth_effect. intros H.
  destruct (String.eqb (strip_hash (location_hash w)) ""); [reflexivity|].
  destruct H as [-> | ->]; [reflexivity|].
  destruct (params_get _ "access_token"); reflexivity.
Qed.

(** What the effect does once both tokens are there: the writes of the
    [try] block, with the [catch] that logs. *)
Lemma oauth_effect_present (w : World) (a r : string) :
  strip_hash (location_hash w) <> "" ->
  fragment_param w "access_token" = Some a ->
  fragment_param w "refresh_token" = Some r ->
  a <> "" -> r <> "" ->
  oauth_effect accepts URLSearchParams w
  = try_catch
      (store_tokens accepts a r (fragment_param w "email")
         (or_default (fragment_param w "name") "User"))
      (fun _ => console_error "Failed to store OAuth tokens") w.
Proof.
  unfold fragment_param, oauth_effect. intros Hh Ha Hr Hane Hrne.
  destruct (String.eqb_spec (strip_hash (location_hash w)) "");
    [contradiction|].
  rewrite Ha, Hr.
  destruct (String.eqb_spec a ""); [contradiction|].
  destruct (String.eqb_spec r ""); [contradiction|].
  reflexivity.
Qed.

(** C4 (amended). The OAuth effect leaves the world as it is, local
    storage included, when [access_token] or [refresh_token] is absent
    from the fragment; whenever it changes local storage, both were
    present and not empty.  The pair is not stored as a whole: the two
    [setItem] calls are separate and the [catch] only logs, so when both
    tokens are present and the browser accepts the first write and refuses
    the second, the access token is stored alone; when it accepts both,
    both are stored, whatever becomes of the later writes. *)
Theorem oauth_tokens_need_both (w : World) :
  (fragment_param w "access_token" = None \/
   fragment_param w "refresh_token" = None ->
   snd (oauth_effect accepts URLSearchParams w) = w) /\
  (localStorage (snd (oauth_effect accepts URLSearchParams w))
     <> localStorage w ->
   exists a r,
     fragment_param w "access_token" = Some a /\
     fragment_param w "refresh_token" = Some r /\
     a <> "" /\ r <> "") /\
  (forall a r,
     strip_hash (location_hash w) <> "" ->
     fragment_param w "access_token" = Some a ->
     fragment_param w "refresh_token" = Some r ->
     a <> "" -> r <> "" ->
     accepts (localStorage w) "access_token" a = true ->
     (accepts (<["access_token" := a]> (localStorage w)) "refresh_token" r
      = false ->
      localStorage (snd (oauth_effect accepts URLSearchParams w))
      = <["access_token" := a]> (localStorage w)) /\
     (accepts (<["access_token" := a]> (localStorage w)) "refresh_token" r
      = true ->
      localStorage (snd (oauth_effect accepts URLSearchParams w))
        !! "access_token" = Some a /\
      localStorage (snd (oauth_effect accepts URLSearchParams w))
        !! "refresh_token" = Some r)).
Proof.
  split; [|split].
  - intros H. rewrite (oauth_effect_absent w H). reflexivity.
  - intros Hchanged.
    destruct (fragment_param w "access_token") as [a|] eqn:Ha;
      [|exfalso; apply Hchanged; rewrite oauth_effect_absent; auto].
    destruct (fragment_param w "refresh_token") as [r|] eqn:Hr;
      [|exfalso; apply Hchanged; rewrite oauth_effect_absent; auto].
    exists a, r. split; [reflexivity|]. split; [reflexivity|].
    unfold fragment_param in Ha, Hr. unfold oauth_effect in Hchanged.
    destruct (String.eqb (strip_hash (location_hash w)) "");
      [exfalso; apply Hchanged; reflexivity|].
    rewrite Ha, Hr in Hchanged.
    destruct (String.eqb_spec a "") as [_|Hane];
      [exfalso; apply Hchanged; reflexivity|].
    destruct (String.eqb_spec r "") as [_|Hrne];
      [exfalso; apply Hchanged; reflexivity|].
    split; assumption.
  - intros a r Hh Ha Hr Hane Hrne Hfirst.
    rewrite (oauth_effect_present w a r Hh Ha Hr Hane Hrne).
    set (out := try_catch _ _ w).
    assert (Hout :
      out = try_catch
              (store_tokens accepts a r (fragment_param w "email")
                 (or_default (fragment_param w "name") "User"))
              (fun _ => console_error "Failed to store OAuth tokens") w)
      by reflexivity.
    clearbody out.
    unfold try_catch, store_tokens, mbind, js_bind, bind in Hout.
    unfold localStorage_setItem at 1 in Hout. rewrite Hfirst in Hout.
    unfold localStorage_setItem at 1 in Hout.
    cbn [localStorage with_localStorage] in Hout.
    split; intros Hsecond; rewrite Hsecond in Hout.
    + rewrite Hout. reflexivity.
    + assert (Hkept : forall k,
                k = "access_token" \/ k = "refresh_token" ->
                localStorage (snd out) !! k
                = <["refresh_token" := r]>
                    (<["access_token" := a]> (localStorage w)) !! k).
      { intros k Hk. rewrite Hout. clear Hout.
        destruct (nonempty (fragment_param w "email"));
          destruct (negb (String.eqb
                            (or_default (fragment_param w "name") "User")
                            ""));
          unfold when, ret, localStorage_setItem, replaceState_pathname,
            dispatchEvent, setLocation, console_error, with_localStorage;
          cbn [localStorage];
          repeat match goal with
                 | |- context [if accepts ?m ?key ?v then _ else _] =>
                     destruct (accepts m key v)
                 end;
          cbn; destruct Hk as [-> | ->];
          repeat rewrite (lookup_insert_ne _ "user_name") by discriminate;
          repeat rewrite (lookup_insert_ne _ "user_email") by discriminate;
          reflexivity. }
      split; rewrite Hkept by auto.
      * rewrite lookup_insert_ne by discriminate.
        apply lookup_insert_eq.
      * apply lookup_insert_eq.
Qed.

(** An empty token counts as missing too: nothing is written. *)
Lemma oauth_effect_empty_token (w : World) :
  fragment_param w "access_token" = Some "" \/
  fragment_param w "refresh_token" = Some "" ->
  oauth_effect accepts URLSearchParams w = (Done tt, w).
Proof.
  unfold fragment_param, oauth_effect. intros H.
  destruct (String.eqb (strip_hash (location_hash w)) ""); [reflexivity|].
  destruct H as [-> | ->].
  - destruct (params_get _ "refresh_token"); reflexivity.
  - destruct (params_get _ "access_token") as [a|]; [|reflexivity].
    rewrite andb_false_r. reflexivity.
Qed.

End Effect.

(** When both tokens are there and the browser accepts every write, both
    are stored, the fragment is cleared and the page navigates home. *)
Lemma oauth_effect_stores_both
    (URLSearchParams : string -> list (string * string))
    (w : World) (a r : string) :
  strip_hash (location_hash w) <> "" ->
  fragment_param URLSearchParams w "access_token" = Some a ->
  fragment_param URLSearchParams w "refresh_token" = Some r ->
  a <> "" -> r <> "" ->
  let w' := snd (oauth_effect (fun _ _ _ => true) URLSearchParams w) in
  localStorage w' !! "access_token" = Some a /\
  localStorage w' !! "refresh_token" = Some r /\
  location_hash w' = "" /\ route w' = "/".
Proof.
  unfold fragment_param, oauth_effect. intros Hh Ha Hr Hane Hrne.
  destruct (String.eqb_spec (strip_hash (location_hash w)) "") as [He|_];
    [contradiction|].
  rewrite Ha, Hr.
  destruct (String.eqb_spec a ""); [contradiction|].
  destruct (String.eqb_spec r ""); [contradiction|].
  cbn [negb andb].
  unfold try_catch, store_tokens.
  destruct (nonempty _); destruct (negb (String.eqb (or_default _ "User") ""));
    unfold mbind, js_bind, bind, when, ret, localStorage_setItem,
      replaceState_pathname, dispatchEvent, setLocation, with_localStorage;
    cbn; repeat split; try reflexivity;
    repeat first [ rewrite lookup_insert_eq; reflexivity
                 | rewrite lookup_insert_ne by discriminate ].
Qed.

(** The two token writes are separate calls: a browser that accepts the
    first and refuses the second leaves the access token stored alone (the
    [catch] logs and does not undo). *)
Lemma oauth_effect_second_write_refused :
  let accepts := fun (_ : gmap string string) (k _ : string) =>
                   String.eqb k "access_token" in
  let parse := fun _ : string =>
                 [("access_token", "A"); ("refresh_token", "R")] in
  let w := {| localStorage := ∅; sessionStorage := ∅;
              location_hash := "#access_token=A&refresh_token=R";
              route := "/login"; events := []; console := [] |} in
  let w' := snd (oauth_effect accepts parse w) in
  localStorage w' !! "access_token" = Some "A" /\
  localStorage w' !! "refresh_token" = None /\
  console w' = ["Failed to store OAuth tokens"].
Proof. cbv zeta. repeat split; vm_compute; reflexivity. Qed.

End LoginProps.

Module HistoryProps.
Import JS History.

(** How many times a character occurs in a string. *)
Fixpoint occurrences (c : ascii) (s : string) : nat :=
  match s with
  | EmptyString => 0
  | String.String a s' =>
      ((if Ascii.eqb a c then 1 else 0) + occurrences c s')%nat
  end.

Definition occurrences_in (c : ascii) (cells : list string) : nat :=
  list_sum (List.map (occurrences c) cells).

Lemma occurrences_app c (s t : string) :
  occurrences c (s ++ t)%string = (occurrences c s + occurrences c t)%nat.
Proof.
  induction s as [|a s IH]; simpl; [reflexivity|].
  rewrite IH. lia.
Qed.

(** Joining adds one separator between two consecutive cells and nothing
    else. *)
Lemma occurrences_join c sep cells :
  occurrences c (join sep cells) =
    (occurrences_in c cells
     + (List.length cells - 1) * occurrences c sep)%nat.
Proof.
  unfold join, occurrences_in.
  induction cells as [|x [|y cells] IH]; simpl in *; [lia | lia |].
  rewrite !occurrences_app, IH. lia.
Qed.

Lemma result_of_cases (pred : PredictionResponse) :
  (result_of pred = Transactions.fraudulent <-> is_fraud pred = true) /\
  (result_of pred = Transactions.pending <->
     is_fraud pred = false /\ gt (fraud_probability pred) 0.5%float = true) /\
  (result_of pred = Transactions.legitimate <->
     is_fraud pred = false /\ gt (fraud_probability pred) 0.5%float = false).
Proof.
  unfold result_of.
  destruct (is_fraud pred), (gt (fraud_probability pred) 0.5%float);
    intuition congruence.
Qed.

Section Page.

Variable toLocaleString : string -> string.
Variable toUpperCase : string -> string.
Variable toLowerCase : string -> string.
Variable toFixed1 : number -> string.
Variable Number_toString : number -> string.

Let row := row toFixed1 Number_toString.

(** C5. Every prediction of the history response gives, in order, one
    record whose result is "fraudulent" exactly when [is_fraud] is true,
    otherwise "pending" exactly when [fraud_probability > 0.5], otherwise
    "legitimate", and whose confidence is [confidence_score * 100]. *)
Theorem historyData_result_and_confidence
    (l : list PredictionResponse) (more : bool) :
  Forall2
    (fun pred record =>
       (result record = Transactions.fraudulent <-> is_fraud pred = true) /\
       (result record = Transactions.pending <->
          is_fraud pred = false /\
          gt (fraud_probability pred) 0.5%float = true) /\
       (result record = Transactions.legitimate <->
          is_fraud pred = false /\
          gt (fraud_probability pred) 0.5%float = false) /\
       confidence record = PrimFloat.mul (confidence_score pred) 100%float)
    l
    (History.historyData toLocaleString toUpperCase
       (Some {| predictions := Some l; has_more := more |})).
Proof.
  simpl. induction l as [|pred l IH]; simpl; constructor; auto.
  pose proof (result_of_cases pred) as (H1 & H2 & H3).
  exact (conj H1 (conj H2 (conj H3 eq_refl))).
Qed.

(** The line of a record: its six cells with a comma between two
    consecutive ones, nothing quoted or escaped. *)
Lemma row_line (record : HistoryRecord) :
  join "," (row record) =
    (timestamp record ++ "," ++ transactionId record ++ "," ++
     cardNumber record ++ "," ++
     Transactions.status_name (result record) ++ "," ++
     toFixed1 (confidence record) ++ "," ++
     Number_toString (processingTime record))%string.
Proof. reflexivity. Qed.

Lemma header_line :
  join "," header =
    "Timestamp,Transaction ID,Card,Result,Confidence,Processing Time".
Proof. reflexivity. Qed.

Lemma occurrences_lines c sep (lines : list (list string)) :
  occurrences_in c (List.map (join sep) lines) =
    (list_sum (List.map (occurrences_in c) lines)
     + occurrences c sep
       * list_sum (List.map (fun r => List.length r - 1) lines))%nat.
Proof.
  unfold occurrences_in at 1.
  remember (occurrences c sep) as k eqn:Hk.
  induction lines as [|r lines IH]; simpl; [lia|].
  rewrite IH, occurrences_join, <- Hk. nia.
Qed.

(** C9. The exported text is the header line and then one line per record,
    in the order of the list, joined by line feeds; a line is the six cells
    joined by commas as they are.  So a line has five commas plus those
    inside its cells, and the text has [n] line feeds plus those inside the
    cells: a comma or a line feed in a cell adds a column or a line. *)
Theorem csv_export_lines (filteredData : list HistoryRecord) :
  History.csv toFixed1 Number_toString filteredData =
    join LF
      ("Timestamp,Transaction ID,Card,Result,Confidence,Processing Time"
       :: List.map (fun record => join "," (History.row toFixed1 Number_toString record))
            filteredData)
  /\ (forall record,
        join "," (History.row toFixed1 Number_toString record) =
          (timestamp record ++ "," ++ transactionId record ++ "," ++
           cardNumber record ++ "," ++
           Transactions.status_name (result record) ++ "," ++
           toFixed1 (confidence record) ++ "," ++
           Number_toString (processingTime record))%string)
  /\ (forall record,
        occurrences "," (join "," (History.row toFixed1 Number_toString record)) =
          (5 + occurrences_in "," (History.row toFixed1 Number_toString record))%nat)
  /\ occurrences "010" (History.csv toFixed1 Number_toString filteredData) =
       (List.length filteredData
        + list_sum
            (List.map
               (fun record =>
                  occurrences_in "010" (History.row toFixed1 Number_toString record))
               filteredData))%nat.
Proof.
  split; [|split; [|split]].
  - unfold History.csv. simpl List.map. rewrite List.map_map. reflexivity.
  - intros record. reflexivity.
  - intros record. rewrite occurrences_join. simpl. lia.
  - unfold History.csv. rewrite occurrences_join, occurrences_lines.
    simpl List.map. rewrite !List.map_map. simpl.
    rewrite length_map.
    replace (list_sum (List.map (fun _ => 5%nat) filteredData))
      with (5 * List.length filteredData)%nat
      by (induction filteredData; simpl; lia).
    lia.
Qed.

End Page.

End HistoryProps.

Module AnalyticsProps.
Import Analytics.

Section Sorting.

Context {A : Type}.
Variable compare : A -> A -> Z.

Lemma insert_sorted_perm (x : A) (l : list A) :
  Permutation (insert_sorted compare x l) (x :: l).
Proof.
  induction l as [|y l IH]; simpl; [reflexivity|].
  destruct (compare x y <=? 0); [reflexivity|].
  rewrite IH. apply perm_swap.
Qed.

(** The sort rearranges: it neither drops nor adds an element. *)
Lemma sorted_by_perm (l : list A) : Permutation (sorted_by compare l) l.
Proof.
  induction l as [|x l IH]; simpl; [reflexivity|].
  rewrite insert_sorted_perm. constructor. exact IH.
Qed.

End Sorting.

Section Page.

Variable getTime : string -> option Z.
Variable toLocaleDateString : string -> string.

(** A trend whose date parses. *)
Definition valid_date (t : FraudTrend) : Prop := is_Some (getTime (date t)).

(** The time of a trend, for one whose date parses. *)
Definition time_of (t : FraudTrend) : Z := default 0 (getTime (date t)).

Definition not_later (a b : FraudTrend) : Prop := time_of a <= time_of b.

Lemma by_date_valid (a b : FraudTrend) :
  valid_date a -> valid_date b ->
  by_date getTime a b = time_of a - time_of b.
Proof.
  unfold valid_date, by_date, time_of.
  intros [ta ->] [tb ->]. reflexivity.
Qed.

Lemma insert_sorted_keeps_order (x : FraudTrend) (l : list FraudTrend) :
  valid_date x -> Forall valid_date l ->
  StronglySorted not_later l ->
  StronglySorted not_later (insert_sorted (by_date getTime) x l).
Proof.
  intros Hx Hl Hs.
  induction Hs as [|y l Hs IH Hy]; simpl.
  - constructor; constructor.
  - apply Forall_cons_iff in Hl as [Hvy Hvl].
    rewrite (by_date_valid x y Hx Hvy).
    destruct (Z.leb_spec (time_of x - time_of y) 0) as [Hle|Hgt].
    + constructor; [constructor; assumption|].
      constructor; [unfold not_later; lia|].
      eapply Forall_impl; [exact Hy|].
      unfold not_later. intros z Hz. lia.
    + constructor; [apply IH, Hvl|].
      eapply Permutation_Forall.
      * symmetry. apply insert_sorted_perm.
      * constructor; [unfold not_later; lia | exact Hy].
Qed.

Lemma sorted_by_date_sorted (l : list FraudTrend) :
  Forall valid_date l ->
  StronglySorted not_later (sorted_by (by_date getTime) l).
Proof.
  induction 1 as [|x l Hx Hl IH]; simpl; [constructor|].
  apply insert_sorted_keeps_order; auto.
  eapply Permutation_Forall; [symmetry; apply sorted_by_perm | exact Hl].
Qed.

(** What the chart gets and what the heap becomes. *)
Lemma fraudTrendsData_eq (h : gmap ref (list FraudTrend)) (trends : ref)
    (l : list FraudTrend) :
  h !! trends = Some l ->
  fraudTrendsData getTime toLocaleDateString (Some trends) h =
    (List.map (trendPoint toLocaleDateString) (sorted_by (by_date getTime) l),
     <[fresh (dom h) := sorted_by (by_date getTime) l]> h).
Proof.
  intros Hl. unfold fraudTrendsData, Array_slice, Array_sort.
  rewrite Hl. simpl.
  rewrite !lookup_insert_eq. simpl.
  rewrite insert_insert_eq. reflexivity.
Qed.

Lemma fresh_not_allocated (h : gmap ref (list FraudTrend)) (a : ref) :
  is_Some (h !! a) -> fresh (dom h) <> a.
Proof.
  intros Ha Heq. apply elem_of_dom in Ha. rewrite <- Heq in Ha.
  exact (is_fresh (dom h) Ha).
Qed.

(** C6. Every point of the trends chart comes from a trend of the
    response and every bar of the merchant chart from the item at the same
    place; the charted "legitimate" value is the total minus the fraud
    count, so fraud and legitimate add up to the total. *)
Theorem charted_counts_sum_to_total
    (h : gmap ref (list FraudTrend)) (trends : ref) (l : list FraudTrend)
    (merchantData : list MerchantCategory) :
  h !! trends = Some l ->
  Forall
    (fun point =>
       exists trend, In trend l /\
         fraud point = fraud_transactions trend /\
         legitimate point =
           total_transactions trend - fraud_transactions trend /\
         fraud point + legitimate point = total_transactions trend)
    (fst (fraudTrendsData getTime toLocaleDateString (Some trends) h))
  /\
  Forall2
    (fun item bar =>
       bar_fraud bar = fraud_count item /\
       bar_legitimate bar = transaction_count item - fraud_count item /\
       bar_fraud bar + bar_legitimate bar = transaction_count item)
    merchantData
    (merchantChartData (Some merchantData)).
Proof.
  intros Hl. split.
  - rewrite (fraudTrendsData_eq h trends l Hl). simpl.
    apply List.Forall_forall. intros point Hin.
    apply in_map_iff in Hin as (trend & <- & Hin).
    exists trend. split.
    + eapply Permutation_in; [apply sorted_by_perm | exact Hin].
    + simpl. repeat split; lia.
  - simpl. induction merchantData as [|item rest IH]; simpl; constructor; auto.
    simpl. repeat split; lia.
Qed.

(** C7. The chart data is the trends in non-decreasing order of time,
    whatever order the response had them in, and the array of the response
    (like every other array allocated before) holds what it held: the
    sort works on the copy that [slice] made. *)
Theorem fraudTrendsData_sorted_copy
    (h : gmap ref (list FraudTrend)) (trends : ref) (l : list FraudTrend) :
  h !! trends = Some l ->
  Forall valid_date l ->
  exists sorted : list FraudTrend,
    Permutation sorted l /\
    StronglySorted not_later sorted /\
    fst (fraudTrendsData getTime toLocaleDateString (Some trends) h) =
      List.map (trendPoint toLocaleDateString) sorted /\
    snd (fraudTrendsData getTime toLocaleDateString (Some trends) h)
      !! trends = Some l /\
    (forall a : ref, is_Some (h !! a) ->
       snd (fraudTrendsData getTime toLocaleDateString (Some trends) h) !! a
       = h !! a).
Proof.
  intros Hl Hvalid. exists (sorted_by (by_date getTime) l).
  rewrite (fraudTrendsData_eq h trends l Hl). simpl.
  split; [apply sorted_by_perm|].
  split; [apply sorted_by_date_sorted, Hvalid|].
  split; [reflexivity|].
  assert (Hother : forall a : ref, is_Some (h !! a) ->
            <[fresh (dom h) := sorted_by (by_date getTime) l]> h !! a = h !! a).
  { intros a Ha. apply lookup_insert_ne, fresh_not_allocated, Ha. }
  split; [|exact Hother].
  rewrite Hother by (rewrite Hl; eauto). exact Hl.
Qed.

End Page.

End AnalyticsProps.

Module SettingsProps.
Import JS Browser Settings.

(** A number greater than zero is truthy: it is neither a zero nor NaN. *)
Lemma positive_truthy (x : number) :
  PrimFloat.ltb 0%float x = true -> number_truthy x = true.
Proof.
  unfold number_truthy, PrimFloat.is_nan.
  rewrite FloatAxioms.ltb_spec, !FloatAxioms.eqb_spec.
  change (Prim2SF 0%float) with (S754_zero false).
  destruct (Prim2SF x) as [s|s| |s m e]; simpl; try discriminate.
  - destruct s; [discriminate|reflexivity].
  - destruct s; [discriminate|]. intros _.
    unfold SFeqb, SFcompare. rewrite Z.compare_refl.
    rewrite Pos.compare_cont_refl. reflexivity.
Qed.

Section Page.

Variable accepts : gmap string string -> string -> string -> bool.
Variable JSON_stringify : value -> string.
Variable JSON_parse : string -> option value.
Variable StringToNumber : string -> number.
Variable ObjectToNumber : value -> number.

(** Loading the settings object that [save] builds calls the five setters
    when the currency is a non-empty string and the two numbers are
    positive. *)
Lemma apply_settings_next (st st0 : State) (c : string) :
  currency st = String c -> c <> "" ->
  PrimFloat.ltb 0%float (historyItems st) = true ->
  PrimFloat.ltb 0%float (refreshSec st) = true ->
  apply_settings StringToNumber ObjectToNumber (next st) st0 = st.
Proof.
  intros Hc Hne Hitems Hsec.
  apply positive_truthy in Hitems, Hsec.
  destruct st as [cur sfi items ar sec]. simpl in *. subst cur.
  unfold apply_settings. simpl.
  destruct (String.eqb_spec c ""); [contradiction|]. simpl.
  rewrite Hitems, Hsec. reflexivity.
Qed.





(** Whatever the stored settings hold for the currency, an empty string is
    never loaded: the guard [if (s?.ui?.currency)] skips it. *)
Lemma load_skips_empty_currency (st st0 : State) :
  currency st = String "" ->
  currency (apply_settings StringToNumber ObjectToNumber (next st) st0)
  = currency st0.
Proof.
  intros Hc. destruct st as [cur sfi items ar sec]. simpl in *. subst cur.
  unfold apply_settings. simpl.
  destruct (number_truthy items), (number_truthy sec); reflexivity.
Qed.

End Page.

End SettingsProps.

Module SeedingProps.
Import Browser Seeding.

Definition idle_and_empty : TransactionsQuery :=
  {| isLoading := false; isFetching := false; isError := false; count := 0 |}.

Definition fresh_account : DashboardQueries :=
  {| metrics := Some 0; predictions_length := 0 |}.

Definition signed_in (email : string) : World :=
  {| localStorage := {["user_email" := email]};
     sessionStorage := ∅;
     location_hash := "";
     route := "/";
     events := [];
     console := [] |}.

Definition always : gmap string string -> string -> string -> bool :=
  fun _ _ _ => true.

Section Sequential.

Variable accepts : gmap string string -> string -> string -> bool.

(** Two worlds with the same storage areas. *)
Definition same_storage (w w' : World) : Prop :=
  localStorage w' = localStorage w /\ sessionStorage w' = sessionStorage w.

(** A task that issues no seed request and leaves the storage areas as
    they are, now and after every response. *)
#[warnings="-register-all"]
Inductive quiet : task -> Prop :=
| quiet_return : quiet Return
| quiet_await (r : request) (resume : response -> World -> task * World) :
    is_seed r = 0%nat ->
    (forall resp w, quiet (fst (resume resp w)) /\
                    same_storage w (snd (resume resp w))) ->
    quiet (Await r resume).

Definition quiet_step (f : World -> task * World) : Prop :=
  forall w, quiet (fst (f w)) /\ same_storage w (snd (f w)).

Definition quiet_resume (k : response -> World -> task * World) : Prop :=
  forall resp, quiet_step (k resp).

Lemma populate_alerts_quiet (q : DashboardQueries) :
  quiet_step (populate_alerts q).
Proof.
  intros w. unfold populate_alerts.
  destruct (0 <? predictions_length q)%nat; simpl.
  { split; [constructor | split; reflexivity]. }
  split; [|split; reflexivity].
  constructor; [reflexivity|].
  intros [ids|] w'; simpl.
  - destruct (firstn 20 ids) as [|i ids']; simpl.
    + split; [constructor | split; reflexivity].
    + split; [|split; reflexivity].
      constructor; [reflexivity|].
      intros [ids''|] w''; simpl; (split; [constructor | split; reflexivity]).
  - split; [constructor | split; reflexivity].
Qed.

Lemma refetch_quiet :
  quiet_step (fun w' => (Await Refetch (fun _ w'' => (Return, w'')), w')).
Proof.
  intros w. simpl. split; [|split; reflexivity].
  constructor; [reflexivity|].
  intros resp w'. simpl. split; [constructor | split; reflexivity].
Qed.

(** With the same storage, the same key and the same answer about the
    marker. *)
Lemma same_storage_not_seeded (w w' : World) :
  same_storage w w' ->
  seededKey w' = seededKey w /\ not_seeded w' = not_seeded w.
Proof.
  intros [Hl Hs]. unfold not_seeded, seededKey. rewrite Hl, Hs. auto.
Qed.

(** When the seed request settles, fulfilled or rejected, and the browser
    accepts the write, the marker is set; what follows is quiet. *)
Lemma seed_settled_marks (message : string) (w0 : World)
    (after : World -> task * World) (r : response) (w : World) :
  quiet_step after ->
  localStorage w = localStorage w0 ->
  (forall m, accepts m (seededKey w0) "1" = true) ->
  let tw := seed_settled accepts message (seededKey w0) after r w in
  quiet (fst tw) /\
  localStorage (snd tw) = localStorage w0 /\
  not_seeded (snd tw) = false.
Proof.
  intros Hafter Hl Hacc. unfold seed_settled, sessionStorage_setItem.
  rewrite Hacc.
  set (w1 := match r with
             | Fulfilled _ => w
             | Rejected => snd (console_error message w)
             end).
  assert (Hl1 : localStorage w1 = localStorage w0).
  { subst w1. destruct r; simpl; exact Hl. }
  set (w2 := with_sessionStorage _ w1).
  destruct (Hafter w2) as [Hq [Hl2 Hs2]].
  simpl. split; [exact Hq|]. split.
  - rewrite Hl2. subst w2. simpl. exact Hl1.
  - unfold not_seeded, seededKey. rewrite Hl2, Hs2. subst w2. simpl.
    rewrite Hl1. fold (seededKey w0). rewrite lookup_insert_eq. reflexivity.
Qed.

Definition is_render (e : event) : bool :=
  match e with Settle _ _ => false | _ => true end.

(** A schedule in which an effect run starts only when no async function
    is waiting: the runs do not overlap. *)
Fixpoint sequential (s : Session) (evs : list event) : Prop :=
  match evs with
  | [] => True
  | e :: evs' =>
      (is_render e = true -> waiting s = []) /\
      sequential (turn accepts s e) evs'
  end.

(** The seed request of a run that waits for its response. *)
Definition seeding_resume (w0 : World)
    (k : response -> World -> task * World) : Prop :=
  exists message after,
    quiet_step after /\
    k = seed_settled accepts message (seededKey w0) after.

(** What holds between two turns of a schedule without overlap. *)
Definition invariant (w0 : World) (s : Session) : Prop :=
  localStorage (world s) = localStorage w0 /\
  ((seed_requests s = 0%nat /\ Forall quiet_resume (waiting s)) \/
   (seed_requests s = 1%nat /\
    exists k, waiting s = [k] /\ seeding_resume w0 k) \/
   (seed_requests s = 1%nat /\ not_seeded (world s) = false /\
    Forall quiet_resume (waiting s))).

Lemma suspend_quiet (s : Session)
    (rest : list (response -> World -> task * World)) (tw : task * World) :
  quiet (fst tw) -> Forall quiet_resume rest ->
  seed_requests (suspend s rest tw) = seed_requests s /\
  world (suspend s rest tw) = snd tw /\
  Forall quiet_resume (waiting (suspend s rest tw)).
Proof.
  destruct tw as [t w]. simpl. intros Hq Hrest.
  inversion Hq as [|r resume Hr Hres]; subst; simpl.
  - auto.
  - rewrite Hr, Nat.add_0_r. repeat split; auto.
    apply Forall_app. split; [exact Hrest|].
    constructor; [|constructor].
    intros resp w'. apply Hres.
Qed.

Lemma key_of_same_localStorage (w w0 : World) :
  localStorage w = localStorage w0 -> seededKey w = seededKey w0.
Proof. intros H. unfold seededKey. rewrite H. reflexivity. Qed.

(** An effect run that returns at once, with nothing waiting before it:
    the session is as it was. *)
Ltac returns_at_once Hl Hcases :=
  simpl; split; [exact Hl|];
  destruct Hcases as [[? ?]|[[? ?H]|[? [? ?]]]];
  [ left; auto
  | match goal with H : exists k, [] = [k] /\ _ |- _ =>
      destruct H as (? & ?Hk & _); discriminate Hk
    end
  | right; right; auto ].

Lemma turn_keeps_invariant (w0 : World) (s : Session) (e : event) :
  (forall m, accepts m (seededKey w0) "1" = true) ->
  (is_render e = true -> waiting s = []) ->
  invariant w0 s -> invariant w0 (turn accepts s e).
Proof.
  intros Hacc Hseq [Hl Hcases].
  pose proof (key_of_same_localStorage _ _ Hl) as Hkey.
  destruct e as [q|q|i r]; simpl.
  - (* the Transactions page renders *)
    rewrite (Hseq eq_refl) in *. unfold transactions_effect.
    destruct (isLoading q || isFetching q || isError q);
      [returns_at_once Hl Hcases |].
    destruct (0 <? count q)%nat;
      [returns_at_once Hl Hcases |].
    destruct (not_seeded (world s)) eqn:Hns; simpl.
    + split; [exact Hl|]. right; left.
      destruct Hcases as [[Hz _]|[[_ H]|[_ [Hm _]]]].
      * rewrite Hz. split; [reflexivity|].
        eexists. split; [reflexivity|].
        rewrite Hkey. eexists _, _. split; [exact refetch_quiet | reflexivity].
      * destruct H as (k & Hk & _); discriminate Hk.
      * congruence.
    + returns_at_once Hl Hcases.
  - (* the Dashboard renders *)
    rewrite (Hseq eq_refl) in *. unfold dashboard_effect.
    assert (Hpop : invariant w0
              (suspend s [] (populate_alerts q (world s)))).
    { destruct (populate_alerts_quiet q (world s)) as [Hq [Hl' Hs']].
      destruct (suspend_quiet s [] _ Hq (List.Forall_nil _)) as (Hn & Hw & Hf).
      split; [rewrite Hw, Hl'; exact Hl|].
      rewrite Hn, Hw.
      destruct Hcases as [[? _]|[[_ H]|[? [Hm _]]]].
      - left; auto.
      - destruct H as (k & Hk & _); discriminate Hk.
      - right; right. split; [assumption|]. split; [|exact Hf].
        destruct (same_storage_not_seeded (world s) _ (conj Hl' Hs'))
          as [_ ->]. exact Hm. }
    destruct (metrics q) as [totalTx|];
      [|returns_at_once Hl Hcases].
    destruct ((totalTx =? 0) && not_seeded (world s)) eqn:Hc; [|exact Hpop].
    apply andb_true_iff in Hc as [_ Hns]. simpl.
    split; [exact Hl|]. right; left.
    destruct Hcases as [[Hz _]|[[_ H]|[_ [Hm _]]]].
    + rewrite Hz. split; [reflexivity|].
      eexists. split; [reflexivity|].
      rewrite Hkey. eexists _, _.
      split; [exact (populate_alerts_quiet q) | reflexivity].
    + destruct H as (k & Hk & _); discriminate Hk.
    + congruence.
  - (* a waiting function gets its response *)
    destruct (waiting s !! i) as [resume|] eqn:Hi;
      [|split; [exact Hl | exact Hcases]].
    destruct Hcases as [[Hz Hw]|[[Ho H]|[Ho [Hm Hw]]]].
    + assert (Hres : quiet_resume resume).
      { rewrite Forall_lookup in Hw. exact (Hw i resume Hi). }
      destruct (Hres r (world s)) as [Hq [Hl' Hs']].
      assert (Hrest : Forall quiet_resume
                        (firstn i (waiting s) ++ skipn (S i) (waiting s))).
      { apply Forall_app. split;
          [apply Forall_take | apply Forall_drop]; exact Hw. }
      destruct (suspend_quiet s _ _ Hq Hrest) as (Hn & Hw' & Hf).
      split; [rewrite Hw', Hl'; exact Hl|].
      left. rewrite Hn. auto.
    + destruct H as (k & Hk & message & after & Hafter & ->).
      rewrite Hk in Hi. destruct i as [|i]; [|discriminate Hi].
      injection Hi as <-. rewrite Hk. simpl firstn. simpl skipn. simpl app.
      destruct (seed_settled_marks message w0 after r (world s)
                  Hafter Hl Hacc) as (Hq & Hl' & Hm).
      destruct (suspend_quiet s [] _ Hq (List.Forall_nil _)) as (Hn & Hw' & Hf).
      split; [rewrite Hw'; exact Hl'|].
      right; right. rewrite Hn, Hw'. auto.
    + assert (Hres : quiet_resume resume).
      { rewrite Forall_lookup in Hw. exact (Hw i resume Hi). }
      destruct (Hres r (world s)) as [Hq [Hl' Hs']].
      assert (Hrest : Forall quiet_resume
                        (firstn i (waiting s) ++ skipn (S i) (waiting s))).
      { apply Forall_app. split;
          [apply Forall_take | apply Forall_drop]; exact Hw. }
      destruct (suspend_quiet s _ _ Hq Hrest) as (Hn & Hw' & Hf).
      split; [rewrite Hw', Hl'; exact Hl|].
      right; right. rewrite Hn, Hw'. split; [exact Ho|]. split; [|exact Hf].
      destruct (same_storage_not_seeded (world s) _ (conj Hl' Hs'))
        as [_ ->]. exact Hm.
Qed.

(** When effect runs do not overlap and the browser accepts the marker,
    a session issues at most one seed request, whatever the queries show
    and however the requests settle. *)
Lemma sequential_runs_seed_once (w0 : World) (evs : list event) :
  (forall m, accepts m (seededKey w0) "1" = true) ->
  sequential (start w0) evs ->
  (seed_requests (run accepts w0 evs) <= 1)%nat.
Proof.
  intros Hacc. unfold run.
  assert (Hinv : invariant w0 (start w0)).
  { split; [reflexivity|]. left. split; [reflexivity | constructor]. }
  revert Hinv. generalize (start w0).
  induction evs as [|e evs IH]; intros s Hinv Hseq; simpl.
  - destruct Hinv as [_ [[-> _]|[[-> _]|[-> _]]]]; lia.
  - destruct Hseq as [Hhead Htail].
    apply IH; [|exact Htail].
    apply turn_keeps_invariant; assumption.
Qed.

End Sequential.

(** C10. The marker is written when the seed request settles, not when it
    is issued: an effect run that starts while an earlier run still awaits
    its seed request finds no marker and issues a second one.  On the
    Dashboard this is a second render (the predictions query has answered)
    before the first seed request settles; on the Transactions page, a
    render after a refetch.  Once the first request has settled, even
    rejected, a later run does not seed. *)
Theorem overlapping_runs_seed_twice :
  seed_requests
    (run always (signed_in "ana@example.com")
       [RenderDashboard fresh_account; RenderDashboard fresh_account]) = 2%nat
  /\
  seed_requests
    (run always (signed_in "ana@example.com")
       [RenderTransactions idle_and_empty;
        RenderTransactions idle_and_empty]) = 2%nat
  /\
  seed_requests
    (run always (signed_in "ana@example.com")
       [RenderDashboard fresh_account; Settle 0 Rejected;
        RenderDashboard fresh_account]) = 1%nat.
Proof. repeat split; vm_compute; reflexivity. Qed.

End SeedingProps.

(* ===================================================================== *)
(** * The model on concrete inputs *)
(* ===================================================================== *)

Module Examples.
Import JS.

(** ** Numbers *)

Example Math_round_ties :
  List.map Math_round [2.5%float; (-2.5)%float; 60.5%float; 0.25%float; (-7.5)%float]
  = [3%float; (-2)%float; 61%float; 0%float; (-7)%float].
Proof. vm_compute. reflexivity. Qed.

Example falsy_numbers :
  List.map number_truthy [0%float; (-0)%float; NaN; 0.5%float; (-3)%float]
  = [false; false; false; true; true].
Proof. vm_compute. reflexivity. Qed.

(** ** Transactions *)

Definition no_conversion : string -> number := fun _ => NaN.
Definition no_conversion_of_object : value -> number := fun _ => NaN.
Definition same_text : string -> string := fun s => s.

Definition scored (score : nullable number) (is_fraud : bool)
  : Transactions.ApiTransaction :=
  {| Transactions.txn_id := "7f3a9c1e";
     Transactions.txn_amount := Present (Number 1250%float);
     Transactions.txn_fraud_score := score;
     Transactions.txn_is_fraud := is_fraud;
     Transactions.txn_card_id := Present "c0ffee-4242";
     Transactions.txn_transaction_date := "2024-01-02T10:00:00Z";
     Transactions.txn_merchant_name := IsNull;
     Transactions.txn_location := Absent |}.

Definition row_of (txn : Transactions.ApiTransaction)
  : Transactions.TableTransaction :=
  Transactions.mapTransaction no_conversion no_conversion_of_object same_text txn.

Example mapTransaction_scores :
  List.map (fun txn => (Transactions.riskScore (row_of txn),
                        Transactions.status (row_of txn)))
    [scored (Present 0.75%float) false;
     scored (Present 0.75%float) true;
     scored (Present 0.5%float) false;
     scored (Present 0%float) false;
     scored IsNull false;
     scored Absent true]
  = [(75%float, Transactions.pending);
     (75%float, Transactions.fraudulent);
     (50%float, Transactions.legitimate);
     (0%float, Transactions.legitimate);
     (0%float, Transactions.legitimate);
     (0%float, Transactions.fraudulent)].
Proof. vm_compute. reflexivity. Qed.

Example mapTransaction_fields :
  Transactions.cardNumber (row_of (scored Absent false)) = "**** **** **** 4242"
  /\ Transactions.merchant (row_of (scored Absent false)) = "Unknown Merchant"
  /\ Transactions.location (row_of (scored Absent false)) = "Unknown"
  /\ Transactions.amount (row_of (scored Absent false)) = 1250%float.
Proof. repeat split; vm_compute; reflexivity. Qed.

Definition high_only : Transactions.Filters :=
  {| Transactions.searchId := None;
     Transactions.status_filter := Some "all";
     Transactions.riskLevel := Some "high" |}.

Definition suspicious : Transactions.TableTransaction :=
  row_of (scored (Present 0.75%float) false).

(** A score between two integers passes none of the three risk filters
    although it has a badge: the filter ranges are for integer scores. *)
Example fractional_score_has_no_filter :
  Transactions.getRiskLevel 69.5%float = Transactions.medium /\
  List.map (fun level => TransactionsProps.score_in_range level 69.5%float)
           ["high"; "medium"; "low"] = [false; false; false].
Proof. split; vm_compute; reflexivity. Qed.

(** A row the high filter drops: score 50, badge "medium". *)
Definition unremarkable : Transactions.TableTransaction :=
  row_of (scored (Present 0.5%float) false).

Example high_filter_on_two_rows :
  Transactions.filteredTransactions same_text high_only
    [unremarkable; suspicious]
  = [suspicious].
Proof. vm_compute. reflexivity. Qed.

Lemma risk_filter_agrees_with_badge_witness :
  Transactions.riskLevel high_only
    = Some (Transactions.risk_level_name Transactions.high) /\
  TransactionsProps.integer_score (Transactions.riskScore suspicious) /\
  Transactions.getRiskLevel (Transactions.riskScore suspicious)
    = Transactions.high /\
  In suspicious
     (Transactions.filteredTransactions same_text high_only
        [unremarkable; suspicious]).
Proof.
  assert (Hscore : TransactionsProps.integer_score
                     (Transactions.riskScore suspicious)).
  { exists 75. split; [split; discriminate | vm_compute; reflexivity]. }
  assert (Hbadge : Transactions.getRiskLevel
                     (Transactions.riskScore suspicious)
                   = Transactions.high)
    by (vm_compute; reflexivity).
  split; [reflexivity|]. split; [exact Hscore|]. split; [exact Hbadge|].
  destruct (TransactionsProps.risk_filter_agrees_with_badge
              same_text high_only Transactions.high
              [unremarkable; suspicious] suspicious eq_refl Hscore)
    as (_ & _ & Hplain).
  apply (Hplain eq_refl eq_refl).
  split; [right; left; reflexivity | exact Hbadge].
Defined.

(** ** The table *)

Example slice_like_the_platform :
  TransactionsTable.slice [1; 2; 3; 4; 5] 1 3 = [2; 3] /\
  TransactionsTable.slice [1; 2; 3; 4; 5] (-2) 10 = [4; 5] /\
  TransactionsTable.slice [1; 2; 3; 4; 5] (-10) 0 = [] /\
  TransactionsTable.slice [1; 2; 3; 4; 5] 4 2 = [].
Proof. repeat split; reflexivity. Qed.

Example third_page_of_25 :
  TransactionsTable.totalPages (seq 0 25) = 3 /\
  TransactionsTable.currentTransactions (seq 0 25)
    (TransactionsTable.run (seq 0 25)
       [TransactionsTable.Next; TransactionsTable.Next;
        TransactionsTable.Next; TransactionsTable.Next])
  = [20; 21; 22; 23; 24]%nat.
Proof. split; vm_compute; reflexivity. Qed.

(** ** History *)

Definition one_decimal_stub : number -> string := fun _ => "87.5".
Definition milliseconds_stub : number -> string := fun _ => "12".

Definition flagged : History.PredictionResponse :=
  {| History.prediction_id := "p-1";
     History.transaction_id := "7f3a9c1e-0000-4242";
     History.timestamp_of := "1/2/2024, 10:00:00 AM";
     History.is_fraud := false;
     History.fraud_probability := 0.75%float;
     History.confidence_score := 0.875%float;
     History.processing_time_ms := 12%float;
     History.risk_level := "high";
     History.model_version := "v1" |}.

(** A timestamp in the en-US style has a comma: the exported line then has
    seven columns under a header of six. *)
Example exported_file :
  History.csv one_decimal_stub milliseconds_stub
    (History.historyData same_text same_text
       (Some {| History.predictions := Some [flagged];
                History.has_more := false |}))
  = String.append
      "Timestamp,Transaction ID,Card,Result,Confidence,Processing Time"
      (String.append History.LF
         "1/2/2024, 10:00:00 AM,7f3a9c1e,**** 4242,pending,87.5,12").
Proof. vm_compute. reflexivity. Qed.

(** ** Analytics *)

Definition sample_times : list (string * Z) :=
  [("2024-01-03", 1704240000000);
   ("2024-01-01", 1704067200000);
   ("2024-01-02", 1704153600000)].

(** The dates of [sample_times] parse; any other string is an invalid
    date. *)
Definition sample_getTime (s : string) : option Z :=
  snd <$> List.find (fun '(d, _) => String.eqb d s) sample_times.

Definition trend (d : string) (total fraud : Z) : Analytics.FraudTrend :=
  {| Analytics.date := d;
     Analytics.total_transactions := total;
     Analytics.fraud_transactions := fraud |}.

Definition sample_trends : list Analytics.FraudTrend :=
  [trend "2024-01-03" 40 4; trend "2024-01-01" 10 1; trend "2024-01-02" 25 0].

Definition sample_heap : gmap Analytics.ref (list Analytics.FraudTrend) :=
  {[ 1%positive := sample_trends ]}.

Example trends_chart :
  fst (Analytics.fraudTrendsData sample_getTime same_text (Some 1%positive)
         sample_heap)
  = [ {| Analytics.point_date := "2024-01-01";
         Analytics.fraud := 1; Analytics.legitimate := 9 |};
      {| Analytics.point_date := "2024-01-02";
         Analytics.fraud := 0; Analytics.legitimate := 25 |};
      {| Analytics.point_date := "2024-01-03";
         Analytics.fraud := 4; Analytics.legitimate := 36 |} ].
Proof. vm_compute. reflexivity. Qed.

Definition sample_merchants : list Analytics.MerchantCategory :=
  [ {| Analytics.category := "grocery";
       Analytics.transaction_count := 12; Analytics.fraud_count := 2 |} ].

Lemma sample_heap_holds_trends :
  sample_heap !! 1%positive = Some sample_trends.
Proof. vm_compute. reflexivity. Defined.

Lemma charted_counts_sum_to_total_witness :
  sample_heap !! 1%positive = Some sample_trends /\
  (Forall
     (fun point =>
        exists trend, In trend sample_trends /\
          Analytics.fraud point = Analytics.fraud_transactions trend /\
          Analytics.legitimate point =
            Analytics.total_transactions trend
            - Analytics.fraud_transactions trend /\
          Analytics.fraud point + Analytics.legitimate point =
            Analytics.total_transactions trend)
     (fst (Analytics.fraudTrendsData sample_getTime same_text
             (Some 1%positive) sample_heap))
   /\
   Forall2
     (fun item bar =>
        Analytics.bar_fraud bar = Analytics.fraud_count item /\
        Analytics.bar_legitimate bar =
          Analytics.transaction_count item - Analytics.fraud_count item /\
        Analytics.bar_fraud bar + Analytics.bar_legitimate bar =
          Analytics.transaction_count item)
     sample_merchants
     (Analytics.merchantChartData (Some sample_merchants))).
Proof.
  split; [exact sample_heap_holds_trends|].
  apply (AnalyticsProps.charted_counts_sum_to_total
           sample_getTime same_text sample_heap 1%positive sample_trends
           sample_merchants).
  exact sample_heap_holds_trends.
Defined.

Lemma sample_trends_valid :
  Forall (AnalyticsProps.valid_date sample_getTime) sample_trends.
Proof.
  repeat constructor; eexists; vm_compute; reflexivity.
Defined.

Lemma fraudTrendsData_sorted_copy_witness :
  sample_heap !! 1%positive = Some sample_trends /\
  Forall (AnalyticsProps.valid_date sample_getTime) sample_trends /\
  exists sorted : list Analytics.FraudTrend,
    Permutation sorted sample_trends /\
    StronglySorted (AnalyticsProps.not_later sample_getTime) sorted /\
    fst (Analytics.fraudTrendsData sample_getTime same_text
           (Some 1%positive) sample_heap) =
      List.map (Analytics.trendPoint same_text) sorted /\
    snd (Analytics.fraudTrendsData sample_getTime same_text
           (Some 1%positive) sample_heap) !! 1%positive
      = Some sample_trends /\
    (forall a : Analytics.ref, is_Some (sample_heap !! a) ->
       snd (Analytics.fraudTrendsData sample_getTime same_text
              (Some 1%positive) sample_heap) !! a
       = sample_heap !! a).
Proof.
  split; [exact sample_heap_holds_trends|].
  split; [exact sample_trends_valid|].
  exact (AnalyticsProps.fraudTrendsData_sorted_copy
           sample_getTime same_text sample_heap 1%positive sample_trends
           sample_heap_holds_trends sample_trends_valid).
Defined.

(** ** Settings *)

Definition chosen : Settings.State :=
  {| Settings.currency := String "USD";
     Settings.showFeatureImportance := false;
     Settings.historyItems := 50%float;
     Settings.autoRefresh := false;
     Settings.refreshSec := 30%float |}.

Definition first_visit : Browser.World :=
  SeedingProps.signed_in "ana@example.com".

Example stored_settings :
  Browser.localStorage
    (snd (Settings.save SeedingProps.always JSONText.stringify chosen
            first_visit)) !! "settings"
  = Some (JSONText.stringify (Settings.next chosen)).
Proof. vm_compute. reflexivity. Qed.

Example nothing_stored_keeps_defaults :
  Settings.load JSONText.parse no_conversion no_conversion_of_object
    first_visit Settings.defaults = Settings.defaults.
Proof. vm_compute. reflexivity. Qed.




End Examples.

(* ===================================================================== *)
(** * Further properties of the pages and components *)
(* ===================================================================== *)

Module TableMore.
Import TransactionsTable.

Lemma firstn_then_next {A : Type} (a b : nat) (l : list A) :
  firstn a l ++ firstn b (skipn a l) = firstn (a + b) l.
Proof.
  revert l. induction a as [|a IH]; intros l; simpl; [reflexivity|].
  destruct l as [|x l]; simpl.
  - rewrite firstn_nil. reflexivity.
  - rewrite IH. reflexivity.
Qed.

Lemma page_of_number {A : Type} (transactions : list A) (i : nat) :
  currentTransactions transactions {| currentPage := Z.of_nat (S i) |}
  = firstn 10 (skipn (i * 10) transactions).
Proof.
  unfold currentTransactions, slice, endIndex, startIndex, relative_index,
    itemsPerPage. simpl currentPage.
  set (n := List.length transactions).
  destruct (Z.ltb_spec ((Z.of_nat (S i) - 1) * 10) 0); [lia|].
  destruct (Z.ltb_spec ((Z.of_nat (S i) - 1) * 10 + 10) 0); [lia|].
  destruct (Nat.le_gt_cases n (i * 10)) as [Hge|Hlt].
  - rewrite (skipn_all2 transactions (n:=i * 10)) by exact Hge.
    rewrite (skipn_all2 transactions) by (fold n; lia).
    rewrite !firstn_nil. reflexivity.
  - replace (Z.to_nat (Z.min ((Z.of_nat (S i) - 1) * 10) (Z.of_nat n)))
      with (i * 10)%nat by lia.
    destruct (Nat.le_gt_cases (i * 10 + 10) n).
    + f_equal. lia.
    + rewrite !firstn_all2; auto; rewrite length_skipn; fold n; lia.
Qed.

Lemma pages_upto {A : Type} (transactions : list A) (k : nat) :
  concat
    (List.map (fun i => currentTransactions transactions
                          {| currentPage := Z.of_nat i |})
              (seq 1 k))
  = firstn (k * 10) transactions.
Proof.
  induction k as [|k IH]; [reflexivity|].
  rewrite seq_S, List.map_app, concat_app, IH. simpl.
  rewrite app_nil_r, page_of_number, firstn_then_next.
  f_equal. lia.
Qed.

(** The pages 1 to [totalPages], one after the other, are the whole list:
    every transaction is on exactly one page, in the order of the list. *)
Theorem pages_cover_the_list {A : Type} (transactions : list A) :
  concat (List.map (currentTransactions transactions) (pages transactions))
  = transactions.
Proof.
  unfold pages. rewrite List.map_map. rewrite pages_upto.
  apply firstn_all2. unfold totalPages, itemsPerPage.
  pose proof (Z.div_mod (Z.of_nat (List.length transactions) + 10 - 1) 10).
  pose proof (Z.mod_pos_bound
                (Z.of_nat (List.length transactions) + 10 - 1) 10).
  lia.
Qed.

(** Without the [onViewDetails] prop, as on the transactions page, the
    eye button flips the details of its own row and leaves every other
    row as it was, and a second click closes what the first opened.  With
    the prop the button opens nothing: it hands the id to the callback. *)
Theorem toggle_flips_one_row (d : Details) (id other : string) :
  (is_expanded (expanded (onClick false id d)) id
   = negb (is_expanded (expanded d) id) /\
   (other <> id ->
    is_expanded (expanded (onClick false id d)) other
    = is_expanded (expanded d) other) /\
   is_expanded (expanded (onClick false id (onClick false id d))) other
   = is_expanded (expanded d) other /\
   viewed (onClick false id d) = viewed d) /\
  (expanded (onClick true id d) = expanded d /\
   viewed (onClick true id d) = viewed d ++ [id]).
Proof.
  split; [|split; reflexivity].
  unfold onClick, updated, is_expanded. cbn [expanded viewed].
  split; [rewrite lookup_insert_eq; reflexivity|].
  split; [|split; [|reflexivity]].
  - intros Hne. rewrite lookup_insert_ne by congruence. reflexivity.
  - destruct (decide (other = id)) as [->|Hne].
    + rewrite !lookup_insert_eq. simpl. apply negb_involutive.
    + rewrite !lookup_insert_ne by congruence. reflexivity.
Qed.

Lemma on_event_in_range {A : Type} (t : list A * State) (e : event A) :
  1 <= currentPage (snd t) <= totalPages (fst t) ->
  match e with
  | Click _ => True
  | Render transactions => currentPage (snd t) <= totalPages transactions
  end ->
  1 <= currentPage (snd (on_event t e)) <= totalPages (fst (on_event t e)).
Proof.
  intros Hin He. destruct e as [c|transactions]; simpl.
  - apply TransactionsTableProps.step_in_range, Hin.
  - lia.
Qed.

(** The page buttons keep the page within [1, totalPages] on a table
    mounted with at least one row, through clicks and through renders with
    another list, as long as every list rendered still has the page shown
    at that moment. *)
Theorem pages_stay_in_range_across_renders {A : Type}
    (transactions : list A) (evs : list (event A)) :
  transactions <> [] ->
  page_remains (transactions, initial) evs ->
  1 <= currentPage (snd (session transactions evs))
    <= totalPages (fst (session transactions evs)).
Proof.
  intros Hne. unfold session.
  assert (H0 : 1 <= currentPage (snd (transactions, initial))
               <= totalPages (fst (transactions, initial))).
  { pose proof (TransactionsTableProps.totalPages_pos transactions Hne).
    simpl. lia. }
  revert H0. generalize (transactions, initial).
  induction evs as [|e evs IH]; intros t Ht Hevs; simpl; [exact Ht|].
  destruct Hevs as [He Hevs].
  apply IH; [apply on_event_in_range; assumption | exact Hevs].
Qed.

End TableMore.

Module TransactionsMore.
Import JS Transactions.

Lemma filter_is_sublist {A : Type} (p : A -> bool) (l : list A) :
  sublist (List.filter p l) l.
Proof.
  induction l as [|x l IH]; simpl; [constructor|].
  destruct (p x); constructor; exact IH.
Qed.

Lemma filter_again {A : Type} (p : A -> bool) (l : list A) :
  List.filter p (List.filter p l) = List.filter p l.
Proof.
  induction l as [|x l IH]; simpl; [reflexivity|].
  destruct (p x) eqn:Hp; simpl; rewrite ?Hp, IH; reflexivity.
Qed.

Lemma filter_filter_and {A : Type} (p q : A -> bool) (l : list A) :
  List.filter p (List.filter q l) = List.filter (fun x => q x && p x) l.
Proof.
  induction l as [|x l IH]; simpl; [reflexivity|].
  destruct (q x) eqn:Hq; simpl; [destruct (p x)|]; rewrite IH; reflexivity.
Qed.

Lemma filter_all {A : Type} (l : list A) :
  List.filter (fun _ => true) l = l.
Proof. induction l as [|x l IH]; simpl; [|rewrite IH]; reflexivity. Qed.

Lemma substring_to_the_end (s : string) (k n : nat) :
  (String.length s - k <= n)%nat ->
  String.substring k n s = String.substring k (String.length s - k) s.
Proof.
  revert k n. induction s as [|c s IH]; intros k n Hn.
  - destruct k, n; reflexivity.
  - destruct k as [|k].
    + simpl String.length in *. 
      destruct n as [|n]; [lia|].
      replace (S (String.length s) - 0)%nat with (S (String.length s)) by lia.
      simpl. f_equal.
      rewrite (IH 0%nat n) by lia.
      replace (String.length s - 0)%nat with (String.length s) by lia.
      reflexivity.
    + simpl. apply IH. simpl in Hn. lia.
Qed.

Lemma substring_split (s : string) (k : nat) :
  s = (String.substring 0 k s
       ++ String.substring k (String.length s - k) s)%string.
Proof.
  revert k. induction s as [|c s IH]; intros k.
  - destruct k; reflexivity.
  - destruct k as [|k].
    + replace (String.length (String.String c s) - 0)%nat
        with (S (String.length s)) by (simpl; lia).
      change (String.String c s
              = String.String c (String.substring 0 (String.length s) s)).
      f_equal.
      pose proof (IH 0%nat) as H0.
      replace (String.length s - 0)%nat with (String.length s) in H0 by lia.
      assert (Hz : String.substring 0 0 s = EmptyString)
        by (destruct s; reflexivity).
      rewrite Hz in H0. exact H0.
    + change (String.String c s
              = String.String c
                  (String.substring 0 k s
                   ++ String.substring k (String.length s - k) s)%string).
      f_equal. apply IH.
Qed.

Lemma length_substring_to_the_end (s : string) (k : nat) :
  String.length (String.substring k (String.length s - k) s)
  = (String.length s - k)%nat.
Proof.
  revert k. induction s as [|c s IH]; intros k.
  - destruct k; reflexivity.
  - destruct k as [|k]; simpl.
    + f_equal. specialize (IH 0%nat).
      replace (String.length s - 0)%nat with (String.length s) in IH by lia.
      exact IH.
    + apply IH.
Qed.

(** [s.slice(-n)] is the end of [s]: the [min n (length s)] last
    characters. *)
Lemma slice_last_is_suffix (n : nat) (s : string) :
  exists hidden,
    s = (hidden ++ slice_last n s)%string /\
    String.length (slice_last n s) = Nat.min n (String.length s).
Proof.
  unfold slice_last.
  rewrite (substring_to_the_end s (String.length s - n) n) by lia.
  exists (String.substring 0 (String.length s - n) s). split.
  - apply substring_split.
  - rewrite length_substring_to_the_end. lia.
Qed.

Lemma status_name_inj (a b : Status) : status_name a = status_name b -> a = b.
Proof. destruct a, b; simpl; congruence. Qed.

Lemma active_status (s : Status) :
  active (Some (status_name s)) = Some (status_name s).
Proof. destruct s; reflexivity. Qed.

Section Page.

Variable StringToNumber : string -> number.
Variable ObjectToNumber : value -> number.
Variable toLocaleString : string -> string.
Variable toLowerCase : string -> string.

(** Whether the three filters keep a row. *)
Definition keeps (f : Filters) (tx : TableTransaction) : bool :=
  match searchId f with
  | Some q =>
      String.eqb q "" || includes (toLowerCase (id tx)) (toLowerCase q)
  | None => true
  end
  && match active (status_filter f) with
     | Some s => String.eqb (status_name (status tx)) s
     | None => true
     end
  && match active (riskLevel f) with
     | Some r => in_risk_range r tx
     | None => true
     end.

Lemma filteredTransactions_keeps (f : Filters) (all : list TableTransaction) :
  filteredTransactions toLowerCase f all = List.filter (keeps f) all.
Proof.
  unfold filteredTransactions, by_riskLevel, by_status, by_searchId, keeps.
  destruct (active (riskLevel f)) as [r|];
    destruct (active (status_filter f)) as [s|];
    destruct (searchId f) as [q|];
    try destruct (String.eqb q "");
    rewrite ?filter_filter_and; simpl;
    try (rewrite filter_all; reflexivity);
    apply filter_ext; intros tx;
    rewrite ?andb_assoc, ?andb_true_r, ?andb_true_l; reflexivity.
Qed.

(** The filters never add, repeat or reorder a row: what is shown is a
    sub-list of the table, and filtering the result again with the same
    filters changes nothing. *)
Theorem filteredTransactions_sublist
    (f : Filters) (all : list TableTransaction) :
  sublist (filteredTransactions toLowerCase f all) all /\
  filteredTransactions toLowerCase f
    (filteredTransactions toLowerCase f all)
  = filteredTransactions toLowerCase f all.
Proof.
  rewrite !filteredTransactions_keeps. split.
  - apply filter_is_sublist.
  - apply filter_again.
Qed.

(** With the status filter on one of the three statuses, the rows kept by
    the status step are exactly the rows of that status: every row is
    under one status and one only. *)
Theorem by_status_keeps_that_status
    (f : Filters) (s : Status) (l : list TableTransaction)
    (tx : TableTransaction) :
  status_filter f = Some (status_name s) ->
  In tx (by_status f l) <-> In tx l /\ status tx = s.
Proof.
  intros Hf. unfold by_status. rewrite Hf, active_status.
  rewrite filter_In. split; intros [Hin Hs]; split; auto.
  - apply String.eqb_eq in Hs. apply status_name_inj, Hs.
  - subst s. apply String.eqb_refl.
Qed.

(** The two levels of the status filter fit: with the filter on a
    status, the page asks the server for [is_fraud = true] exactly for
    "fraudulent", and every transaction whose row has that status has the
    [is_fraud] asked for, so the server's answer holds every row the
    page would keep. *)
Theorem server_filter_loses_no_row (f : Filters) (s : Status) :
  status_filter f = Some (status_name s) ->
  exists is_fraud,
    queryParams f = Some is_fraud /\
    forall txn,
      status (mapTransaction StringToNumber ObjectToNumber toLocaleString txn)
      = s ->
      txn_is_fraud txn = is_fraud.
Proof.
  intros Hf. unfold queryParams. rewrite Hf, active_status.
  eexists. split; [reflexivity|].
  intros txn. simpl. unfold status_from.
  destruct (txn_is_fraud txn),
           (gt (riskScore_of (txn_fraud_score txn)) 60%float), s;
    simpl; intros H; try discriminate H; reflexivity.
Qed.

(** The card column never shows more of [card_id] than its last four
    characters: after the mask comes "0000" or the end of the id, four
    characters at most. *)
Theorem cardNumber_masks_all_but_four (txn : ApiTransaction) :
  exists suffix,
    cardNumber
      (mapTransaction StringToNumber ObjectToNumber toLocaleString txn)
    = ("**** **** **** " ++ suffix)%string /\
    (String.length suffix <= 4)%nat /\
    (suffix = "0000" \/
     exists c hidden,
       txn_card_id txn = Present c /\ c = (hidden ++ suffix)%string).
Proof.
  unfold mapTransaction. simpl. unfold cardSuffix.
  destruct (txn_card_id txn) as [| |c];
    try (exists "0000"; repeat split; simpl; auto; lia).
  destruct (String.eqb c "");
    [exists "0000"; repeat split; simpl; auto; lia|].
  destruct (slice_last_is_suffix 4 c) as (hidden & Hc & Hlen).
  exists (slice_last 4 c). repeat split; [lia|].
  right. exists c, hidden. auto.
Qed.

End Page.

End TransactionsMore.

(* ===================================================================== *)
(** * The analytics page: equal dates and the hourly bars *)
(* ===================================================================== *)

Module AnalyticsHourly.
Import Analytics.

(** [String(n)] for a whole number. *)
Definition String_of_nat (n : nat) : string := JSONText.decimal (Z.of_nat n).

(** [s.padStart(2, "0")]. *)
Definition padStart2 (s : string) : string :=
  String.append (String.concat "" (repeat "0" (2 - String.length s))) s.

Record HourBar : Type := {
  hour : string;
  count : Z
}.

Definition hourBar (idx : nat) (trend : FraudTrend) : HourBar :=
  {| hour := padStart2 (String_of_nat (idx * 2));
     count := fraud_transactions trend |}.

(** [trendsData?.trends.slice(0, 24).map((trend, idx) => ...) || []], read
    from the heap that holds the [trends] array. *)
Definition hourlyData (trends : option ref) (h : gmap ref (list FraudTrend))
  : list HourBar :=
  match trends with
  | None => []
  | Some a => imap hourBar (firstn 24 (default [] (h !! a)))
  end.

End AnalyticsHourly.

Module AnalyticsMore.
Import Analytics AnalyticsProps AnalyticsHourly.

Section Page.

Variable getTime : string -> option Z.
Variable toLocaleDateString : string -> string.

(** The trends of one time, in the order of the list. *)
Definition at_time (t : Z) (l : list FraudTrend) : list FraudTrend :=
  List.filter (fun trend => time_of getTime trend =? t) l.

Lemma insert_sorted_at_time (t : Z) (x : FraudTrend) (l : list FraudTrend) :
  valid_date getTime x -> Forall (valid_date getTime) l ->
  at_time t (insert_sorted (by_date getTime) x l) = at_time t (x :: l).
Proof.
  intros Hx Hl. induction Hl as [|y l Hy Hl IH]; [reflexivity|].
  simpl insert_sorted. rewrite (by_date_valid getTime x y Hx Hy).
  destruct (Z.leb_spec (time_of getTime x - time_of getTime y) 0)
    as [Hle|Hgt]; [reflexivity|].
  unfold at_time in *. simpl.
  destruct (Z.eqb_spec (time_of getTime y) t) as [Hyt|Hyt].
  - destruct (Z.eqb_spec (time_of getTime x) t) as [Hxt|Hxt]; [lia|].
    simpl in IH. rewrite IH.
    destruct (Z.eqb_spec (time_of getTime x) t); [lia|]. reflexivity.
  - rewrite IH. simpl. reflexivity.
Qed.

Lemma sorted_by_at_time (t : Z) (l : list FraudTrend) :
  Forall (valid_date getTime) l ->
  at_time t (sorted_by (by_date getTime) l) = at_time t l.
Proof.
  induction 1 as [|x l Hx Hvalid IH]; [reflexivity|].
  simpl sorted_by. rewrite insert_sorted_at_time.
  - unfold at_time in *. simpl. rewrite IH. reflexivity.
  - exact Hx.
  - eapply Permutation_Forall;
      [symmetry; apply sorted_by_perm | exact Hvalid].
Qed.

(** The sort is stable on the chart: trends of the same date come out in
    the order the response had them. *)
Theorem same_date_trends_keep_their_order
    (h : gmap ref (list FraudTrend)) (trends : ref) (l : list FraudTrend) :
  h !! trends = Some l ->
  Forall (valid_date getTime) l ->
  fst (fraudTrendsData getTime toLocaleDateString (Some trends) h)
  = List.map (trendPoint toLocaleDateString)
             (sorted_by (by_date getTime) l) /\
  forall t : Z,
    at_time t (sorted_by (by_date getTime) l) = at_time t l.
Proof.
  intros Hl Hvalid. split.
  - rewrite (fraudTrendsData_eq getTime toLocaleDateString h trends l Hl).
    reflexivity.
  - intros t. apply sorted_by_at_time, Hvalid.
Qed.

Lemma counts_of_bars (g : nat -> nat) (l : list FraudTrend) :
  List.map count (imap (fun i trend => hourBar (g i) trend) l)
  = List.map fraud_transactions l.
Proof.
  revert g. induction l as [|x l IH]; intros g; [reflexivity|].
  simpl. f_equal. apply (IH (fun i => g (S i))).
Qed.

Lemma two_character_labels :
  forallb (fun i => Nat.eqb (String.length (padStart2 (String_of_nat (i * 2)))) 2)
          (seq 0 24) = true.
Proof. vm_compute. reflexivity. Qed.

(** The hourly chart reads the response's own array, which the sort for
    the trends chart has left alone: after [fraudTrendsData] has run, the
    bars are still the first 24 trends in the order of the response, one
    bar per trend, each under a label of two characters. *)
Theorem hourly_bars_follow_the_response
    (h : gmap ref (list FraudTrend)) (trends : ref) (l : list FraudTrend) :
  h !! trends = Some l ->
  hourlyData (Some trends)
    (snd (fraudTrendsData getTime toLocaleDateString (Some trends) h))
  = hourlyData (Some trends) h /\
  List.map count
    (hourlyData (Some trends)
       (snd (fraudTrendsData getTime toLocaleDateString (Some trends) h)))
  = List.map fraud_transactions (firstn 24 l) /\
  (List.length (hourlyData (Some trends) h) <= 24)%nat /\
  Forall (fun bar => String.length (hour bar) = 2%nat)
         (hourlyData (Some trends) h).
Proof.
  intros Hl.
  assert (Hkept :
    snd (fraudTrendsData getTime toLocaleDateString (Some trends) h)
      !! trends = Some l).
  { rewrite (fraudTrendsData_eq getTime toLocaleDateString h trends l Hl).
    simpl. rewrite lookup_insert_ne; [exact Hl|].
    apply fresh_not_allocated. rewrite Hl. eauto. }
  unfold hourlyData. rewrite Hkept, Hl. simpl.
  split; [reflexivity|].
  split; [apply (counts_of_bars (fun i => i))|].
  split; [rewrite length_imap, length_firstn; lia|].
  apply Forall_forall. intros bar Hbar.
  apply elem_of_lookup_imap in Hbar as (i & trend & -> & Hi).
  apply lookup_lt_Some in Hi. rewrite length_firstn in Hi.
  pose proof two_character_labels as H24.
  rewrite forallb_forall in H24.
  specialize (H24 i). simpl.
  apply Nat.eqb_eq, H24, in_seq. lia.
Qed.

End Page.

End AnalyticsMore.

Module SettingsMore.
Import JS Browser Settings.

Section Page.

Variable accepts : gmap string string -> string -> string -> bool.
Variable JSON_stringify : value -> string.
Variable JSON_parse : string -> option value.
Variable StringToNumber : string -> number.
Variable ObjectToNumber : value -> number.

(** With nothing usable in local storage the load routine sets nothing:
    when the "settings" key is missing or empty it parses "{}", an object
    without properties, and when the stored text is not JSON the empty
    [catch] swallows the error. *)
Theorem load_keeps_state_without_settings (w : World) (st : State) :
  JSON_parse "{}" = Some (Object []) ->
  (localStorage w !! "settings" = None \/
   localStorage w !! "settings" = Some "" \/
   (exists text, localStorage w !! "settings" = Some text /\
                 text <> "" /\ JSON_parse text = None)) ->
  load JSON_parse StringToNumber ObjectToNumber w st = st.
Proof.
  intros Hempty Hstored. unfold load.
  destruct Hstored as [-> | [-> | (text & -> & Hne & Hbad)]]; simpl.
  - rewrite Hempty. destruct st; reflexivity.
  - rewrite Hempty. destruct st; reflexivity.
  - destruct (String.eqb_spec text ""); [contradiction|].
    rewrite Hbad. reflexivity.
Qed.

(** A state the load routine restores: a non-empty currency string and
    two truthy numbers. *)
Definition restorable (st : State) : Prop :=
  (exists c, currency st = String c /\ c <> "") /\
  number_truthy (historyItems st) = true /\
  number_truthy (refreshSec st) = true.

Lemma apply_settings_restorable (st st0 : State) :
  restorable st ->
  apply_settings StringToNumber ObjectToNumber (next st) st0 = st.
Proof.
  intros [(c & Hc & Hne) [Hitems Hsec]].
  destruct st as [cur sfi items ar sec]. simpl in *. subst cur.
  unfold apply_settings. simpl.
  destruct (String.eqb_spec c ""); [contradiction|]. simpl.
  rewrite Hitems, Hsec. reflexivity.
Qed.

Lemma defaults_restorable : restorable defaults.
Proof.
  split; [exists "INR"; split; [reflexivity | discriminate]|].
  split; vm_compute; reflexivity.
Qed.

Lemma onChange_restorable (e : edit) (st : State) :
  (forall text, In text itemsPerPage_options ->
     number_truthy (StringToNumber text) = true) ->
  offered e -> restorable st ->
  restorable (onChange StringToNumber ObjectToNumber e st).
Proof.
  intros Hoptions He [(c & Hc & Hne) [Hitems Hsec]].
  destruct e as [text|checked|text|checked|text]; simpl in *.
  - split; [|auto]. exists text. split; [reflexivity|].
    destruct He as [<-|[<-|[]]]; discriminate.
  - split; [eauto|auto].
  - split; [eauto|]. split; [apply Hoptions, He | exact Hsec].
  - split; [eauto|auto].
  - split; [eauto|]. split; [exact Hitems|].
    destruct (number_truthy (StringToNumber text)) eqn:Hx;
      [exact Hx | vm_compute; reflexivity].
Qed.

Lemma edited_restorable (edits : list edit) :
  (forall text, In text itemsPerPage_options ->
     number_truthy (StringToNumber text) = true) ->
  Forall offered edits ->
  restorable (edited StringToNumber ObjectToNumber edits).
Proof.
  intros Hoptions Hoffered. unfold edited.
  generalize defaults_restorable. generalize defaults.
  induction Hoffered as [|e edits He Hrest IH]; intros st Hst; simpl;
    [exact Hst|].
  apply IH, onChange_restorable; assumption.
Qed.

(** Whatever the user does on the form (the selects offering their
    options, the interval input any text), Save Settings and then the
    load routine bring the form's state back: the currency is never
    empty and the interval never 0 or NaN, since an unusable interval
    falls back to 60. *)
Theorem edited_settings_are_restored
    (edits : list edit) (w : World) (st0 : State) :
  (forall text, In text itemsPerPage_options ->
     number_truthy (StringToNumber text) = true) ->
  Forall offered edits ->
  accepts (localStorage w) "settings"
    (JSON_stringify (next (edited StringToNumber ObjectToNumber edits)))
    = true ->
  JSON_stringify (next (edited StringToNumber ObjectToNumber edits)) <> "" ->
  JSON_parse
    (JSON_stringify (next (edited StringToNumber ObjectToNumber edits)))
    = Some (next (edited StringToNumber ObjectToNumber edits)) ->
  load JSON_parse StringToNumber ObjectToNumber
    (snd (save accepts JSON_stringify
            (edited StringToNumber ObjectToNumber edits) w))
    st0
  = edited StringToNumber ObjectToNumber edits.
Proof.
  intros Hoptions Hoffered Hacc Htext Hjson.
  pose proof (edited_restorable edits Hoptions Hoffered) as Hres.
  revert Hacc Htext Hjson.
  generalize (edited StringToNumber ObjectToNumber edits) Hres.
  intros st Hst Hacc Htext Hjson.
  unfold save, mbind, js_bind, bind, localStorage_setItem.
  rewrite Hacc. simpl. unfold load. simpl. rewrite lookup_insert_eq. simpl.
  destruct (String.eqb_spec (JSON_stringify (next st)) ""); [contradiction|].
  rewrite Hjson. apply apply_settings_restorable, Hst.
Qed.

End Page.

End SettingsMore.

(* ===================================================================== *)
(** * The application shell: authentication state and routes *)
(* ===================================================================== *)

Module App.
Import Browser.

(** What a [Switch] renders: a page, or a [Redirect] whose effect calls
    [setLocation(to)]. *)
Inductive screen : Type :=
| Dashboard
| Transactions
| FraudDetection
| Analytics
| ModelInfo
| History
| Settings
| Profile
| Login
| NotFound
| Redirect (to : string).

(** [Boolean(localStorage.getItem("access_token"))]. *)
Definition has_access_token (w : World) : bool :=
  nonempty (localStorage w !! "access_token").

(** [useAuthState]: the React state [isAuthenticated], and whether the
    hook's effect has registered its two listeners yet. *)
Record AuthState : Type := {
  isAuthenticated : bool;
  listening : bool
}.

(** The first render:
    [useState(Boolean(localStorage.getItem("access_token")))]; the effect
    has not run. *)
Definition useAuthState (w : World) : AuthState :=
  {| isAuthenticated := has_access_token w; listening := false |}.

(** The hook's effect, run once after the mount: [addEventListener] for
    "storage" and for "auth-changed". *)
Definition addEventListeners (s : AuthState) : AuthState :=
  {| isAuthenticated := isAuthenticated s; listening := true |}.

(** [handler]: [setIsAuthenticated(Boolean(localStorage.getItem(...)))]. *)
Definition handler (w : World) (s : AuthState) : AuthState :=
  {| isAuthenticated := has_access_token w; listening := listening s |}.

(** [window.dispatchEvent] calls, synchronously, the listeners that are
    registered at that moment. *)
Definition dispatched (name : string) (w : World) (s : AuthState)
  : AuthState :=
  if listening s
     && (String.eqb name "storage" || String.eqb name "auth-changed")
  then handler w s else s.

Section Routes.

(** Whether a route's path pattern matches the location (the router's
    matcher). *)
Variable matches : string -> string -> bool.

(** A [Switch] renders its first route that matches; a route without a
    path matches every location. *)
Definition AuthenticatedRoutes (location : string) : screen :=
  if matches "/" location then Dashboard
  else if matches "/transactions" location then Transactions
  else if matches "/detect" location then FraudDetection
  else if matches "/analytics" location then Analytics
  else if matches "/model" location then ModelInfo
  else if matches "/history" location then History
  else if matches "/settings" location then Settings
  else if matches "/profile" location then Profile
  else if matches "/login" location then Redirect "/"
  else NotFound.

Definition UnauthenticatedRoutes (location : string) : screen :=
  if matches "/login" location then Login else Redirect "/login".

Definition routes (isAuthenticated : bool) (location : string) : screen :=
  if isAuthenticated then AuthenticatedRoutes location
  else UnauthenticatedRoutes location.

(** What the user ends up seeing: a [Redirect] moves to its target and
    the routes render again, at most [hops] times. *)
Fixpoint shown (hops : nat) (isAuthenticated : bool) (location : string)
  : screen :=
  match routes isAuthenticated location, hops with
  | Redirect to, S hops' => shown hops' isAuthenticated to
  | s, _ => s
  end.

(** [new URLSearchParams(s)], for the login page. *)
Variable URLSearchParams : string -> list (string * string).

(** Loading the application at [route w], in a browser that accepts every
    write.  [App] renders with the initial authentication state and the
    routes render under it.  React runs the effects of a mount children
    first: the effect of the login page (or of [Redirect]), when that is
    what the routes render, runs before the effect of [useAuthState]
    registers the listeners, and the events it dispatches go to the
    listeners there are at that moment.  The login effect changes no
    storage after it has dispatched its event, so the handler would read
    the storage the effect leaves. *)
Definition mount (w : World) : AuthState * World :=
  let auth := useAuthState w in
  match routes (isAuthenticated auth) (route w) with
  | Login =>
      let w' := snd (Login.oauth_effect (fun _ _ _ => true)
                       URLSearchParams w) in
      let auth' :=
        fold_left (fun s name => dispatched name w' s)
                  (skipn (List.length (events w)) (events w')) auth in
      (addEventListeners auth', w')
  | Redirect to => (addEventListeners auth, snd (setLocation to w))
  | _ => (addEventListeners auth, w)
  end.

End Routes.

End App.

Module AppProps.
Import Browser App.

Section Routes.

Variable matches : string -> string -> bool.

(** The routes guard the pages: whatever the location, after one redirect
    at most a visitor who is not signed in sees the login page and nothing
    else, and a signed-in user sees a page that is not the login page. *)
Theorem routes_guard_the_pages (location : string) :
  matches "/login" "/login" = true ->
  matches "/" "/" = true ->
  shown matches 1 false location = Login /\
  shown matches 1 true location <> Login /\
  (forall to, shown matches 1 true location <> Redirect to).
Proof.
  intros Hlogin Hhome. unfold shown, routes.
  split.
  - unfold UnauthenticatedRoutes.
    destruct (matches "/login" location); [reflexivity|].
    rewrite Hlogin. reflexivity.
  - unfold AuthenticatedRoutes.
    repeat match goal with
           | |- context [if matches ?p location then _ else _] =>
               destruct (matches p location)
           end;
      try rewrite Hhome; split; intros; discriminate.
Qed.

End Routes.

Section Callback.

Variable URLSearchParams : string -> list (string * string).
Variable matches : string -> string -> bool.

(** An event dispatched before the listeners are registered is lost. *)
Lemma not_listening (w : World) (names : list string) (s : AuthState) :
  listening s = false ->
  fold_left (fun s name => dispatched name w s) names s = s.
Proof.
  intros Hs. induction names as [|name names IH]; simpl; [reflexivity|].
  unfold dispatched at 2. rewrite Hs. exact IH.
Qed.

(** A mount takes the authentication state from local storage as it is
    when [App] renders. *)
Lemma mount_isAuthenticated (w : World) :
  isAuthenticated (fst (mount matches URLSearchParams w))
  = has_access_token w.
Proof.
  unfold mount.
  destruct (routes matches (isAuthenticated (useAuthState w)) (route w));
    cbn [fst addEventListeners isAuthenticated];
    try rewrite not_listening by reflexivity; reflexivity.
Qed.

(** A signed-in user is never shown the login page. *)
Lemma authenticated_not_login (location : string) :
  matches "/" "/" = true ->
  shown matches 1 true location <> Login.
Proof.
  intros Hhome. unfold shown, routes, AuthenticatedRoutes.
  repeat match goal with
         | |- context [if matches ?p location then _ else _] =>
             destruct (matches p location)
         end;
    try rewrite Hhome; discriminate.
Qed.

(** An OAuth callback that lands on the login route with both tokens, for
    a visitor who is not signed in yet: the tokens are stored, the
    fragment is removed and "auth-changed" is dispatched, but the
    application does not sign in.  The login page's effect runs before
    [useAuthState] has registered its listener, so [isAuthenticated]
    stays false and, after the navigation to "/" and the redirect back,
    the login page is shown with both tokens stored.  A later
    "auth-changed" or "storage" event, or a reload, signs the user in. *)
Theorem oauth_callback_needs_a_reload (w : World) (a r : string) :
  matches "/login" (route w) = true ->
  matches "/login" "/login" = true ->
  matches "/" "/" = true ->
  has_access_token w = false ->
  Login.strip_hash (location_hash w) <> "" ->
  LoginProps.fragment_param URLSearchParams w "access_token" = Some a ->
  LoginProps.fragment_param URLSearchParams w "refresh_token" = Some r ->
  a <> "" -> r <> "" ->
  let auth := fst (mount matches URLSearchParams w) in
  let w' := snd (mount matches URLSearchParams w) in
  (localStorage w' !! "access_token" = Some a /\
   localStorage w' !! "refresh_token" = Some r /\
   events w' = events w ++ ["auth-changed"] /\
   location_hash w' = "" /\ route w' = "/") /\
  (isAuthenticated auth = false /\ listening auth = true /\
   shown matches 1 (isAuthenticated auth) (route w') = Login) /\
  (isAuthenticated (dispatched "auth-changed" w' auth) = true /\
   isAuthenticated (dispatched "storage" w' auth) = true /\
   isAuthenticated
     (fst (mount matches URLSearchParams (snd (setLocation "/login" w'))))
   = true /\
   shown matches 1 true "/login" <> Login).
Proof.
  intros Hcallback Hlogin Hhome Hout Hh Ha Hr Hane Hrne.
  destruct (LoginProps.oauth_effect_stores_both URLSearchParams w a r
              Hh Ha Hr Hane Hrne) as (Hacc & Href & Hhash & Hroute).
  assert (Hevents :
    events (snd (Login.oauth_effect (fun _ _ _ => true) URLSearchParams w))
    = events w ++ ["auth-changed"]).
  { unfold Login.oauth_effect, LoginProps.fragment_param in *.
    destruct (String.eqb_spec (Login.strip_hash (location_hash w)) "");
      [contradiction|].
    rewrite Ha, Hr.
    destruct (String.eqb_spec a ""); [contradiction|].
    destruct (String.eqb_spec r ""); [contradiction|].
    cbn [negb andb]. unfold try_catch, Login.store_tokens.
    destruct (nonempty _);
      destruct (negb (String.eqb (or_default _ "User") ""));
      reflexivity. }
  assert (Hmount :
    mount matches URLSearchParams w
    = (addEventListeners (useAuthState w),
       snd (Login.oauth_effect (fun _ _ _ => true) URLSearchParams w))).
  { unfold mount. cbn [useAuthState isAuthenticated]. rewrite Hout.
    unfold routes, UnauthenticatedRoutes. rewrite Hcallback.
    rewrite not_listening by reflexivity. reflexivity. }
  intros auth w'. subst auth w'. rewrite Hmount. cbn [fst snd].
  set (w' := snd (Login.oauth_effect (fun _ _ _ => true) URLSearchParams w))
    in *.
  assert (Htoken : has_access_token w' = true).
  { unfold has_access_token. rewrite Hacc. simpl.
    destruct (String.eqb_spec a ""); [contradiction | reflexivity]. }
  split; [repeat split; assumption|]. split.
  - cbn [addEventListeners useAuthState isAuthenticated listening].
    rewrite Hout, Hroute. split; [reflexivity|]. split; [reflexivity|].
    unfold shown, routes, UnauthenticatedRoutes.
    destruct (matches "/login" "/"); [reflexivity|].
    rewrite Hlogin. reflexivity.
  - split; [|split; [|split]].
    + unfold dispatched. cbn. exact Htoken.
    + unfold dispatched. cbn. exact Htoken.
    + rewrite mount_isAuthenticated. exact Htoken.
    + apply authenticated_not_login, Hhome.
Qed.

End Callback.

End AppProps.

(* ===================================================================== *)
(** * The prediction result card *)
(* ===================================================================== *)

Module PredictionResult.
Import JS.

(** [const isFraud = fraudProbability >= 50], which picks the icon and
    the colours of the card. *)
Definition isFraud (fraudProbability : number) : bool :=
  ge fraudProbability 50%float.

(** The card's own [getRiskLevel], for the badge. *)
Definition getRiskLevel (score : number) : Transactions.risk_level :=
  if ge score 70%float then Transactions.high
  else if ge score 40%float then Transactions.medium
  else Transactions.low.

End PredictionResult.

Module PredictionResultProps.
Import JS PredictionResult.

(** Between two positive finite numbers [a <= b], whatever is at least
    [b] is at least [a]. *)
Lemma SFleb_lower (ma mb : positive) (ea eb : Z) (p : spec_float) :
  ea < eb \/ (ea = eb /\ (ma <= mb)%positive) ->
  SFleb (S754_finite false mb eb) p = true ->
  SFleb (S754_finite false ma ea) p = true.
Proof.
  intros Hab. unfold SFleb, SFcompare.
  destruct p as [s|s| |s m e]; try (intros H; exact H).
  destruct s; [intros H; exact H|].
  change (Pos.compare_cont Eq mb m) with (Pos.compare mb m).
  change (Pos.compare_cont Eq ma m) with (Pos.compare ma m).
  destruct (Z.compare_spec eb e) as [Heb|Heb|Heb];
    destruct (Z.compare_spec ea e) as [Hea|Hea|Hea];
    try reflexivity; try discriminate; try lia.
  destruct (Pos.compare_spec mb m) as [Hm|Hm|Hm];
    destruct (Pos.compare_spec ma m) as [Hm'|Hm'|Hm'];
    try reflexivity; try discriminate; lia.
Qed.

Lemma ge_lower (a b p : number) (ma mb : positive) (ea eb : Z) :
  Prim2SF a = S754_finite false ma ea ->
  Prim2SF b = S754_finite false mb eb ->
  ea < eb \/ (ea = eb /\ (ma <= mb)%positive) ->
  ge p b = true -> ge p a = true.
Proof.
  unfold ge. rewrite !FloatAxioms.leb_spec. intros -> ->.
  apply SFleb_lower.
Qed.

Lemma at_least_70_is_at_least_50 (p : number) :
  ge p 70%float = true -> ge p 50%float = true.
Proof.
  eapply ge_lower; [reflexivity | reflexivity | left; reflexivity].
Qed.

Lemma at_least_50_is_at_least_40 (p : number) :
  ge p 50%float = true -> ge p 40%float = true.
Proof.
  eapply ge_lower; [reflexivity | reflexivity |].
  right. split; [reflexivity | discriminate].
Qed.

(** The badge and the alarm of the card agree at both ends: a "high"
    badge always comes with the fraud icon and colours, a "low" badge
    never does; and the badge is the one the transactions table gives the
    same score. *)
Theorem badge_and_alarm_agree (fraudProbability : number) :
  (getRiskLevel fraudProbability = Transactions.high ->
   isFraud fraudProbability = true) /\
  (getRiskLevel fraudProbability = Transactions.low ->
   isFraud fraudProbability = false) /\
  getRiskLevel fraudProbability
  = Transactions.getRiskLevel fraudProbability.
Proof.
  unfold getRiskLevel, isFraud, Transactions.getRiskLevel.
  split; [|split; [|reflexivity]].
  - destruct (ge fraudProbability 70%float) eqn:H70.
    + intros _. apply at_least_70_is_at_least_50, H70.
    + destruct (ge fraudProbability 40%float); discriminate.
  - destruct (ge fraudProbability 70%float) eqn:H70; [discriminate|].
    destruct (ge fraudProbability 40%float) eqn:H40; [discriminate|].
    intros _. destruct (ge fraudProbability 50%float) eqn:H50;
      [|reflexivity].
    apply at_least_50_is_at_least_40 in H50. congruence.
Qed.

End PredictionResultProps.

(* ===================================================================== *)
(** * The fraud detection form: the card number field *)
(* ===================================================================== *)

Module FraudDetectionForm.

(** The characters [\s] matches among those a card number is typed with
    (ASCII): tab, line feed, vertical tab, form feed, carriage return and
    space. *)
Definition is_space (c : ascii) : bool :=
  Ascii.eqb c "009" || Ascii.eqb c "010" || Ascii.eqb c "011"
  || Ascii.eqb c "012" || Ascii.eqb c "013" || Ascii.eqb c " ".

(** [value.replace(/\s/g, "")]. *)
Fixpoint cleaned (value : string) : string :=
  match value with
  | EmptyString => EmptyString
  | String.String c rest =>
      if is_space c then cleaned rest else String.String c (cleaned rest)
  end.

(** [cleaned.match(/.{1,4}/g) || []]: groups of four characters, the last
    one of what is left.  ([.] refuses only line terminators, and those
    are white space, which [cleaned] has removed.) *)
Fixpoint chunks (s : string) : list string :=
  match s with
  | EmptyString => []
  | String.String a (String.String b (String.String c (String.String d rest))) =>
      String.String a (String.String b (String.String c (String.String d EmptyString)))
      :: chunks rest
  | short => [short]
  end.

Definition formatCardNumber (value : string) : string :=
  String.concat " " (chunks (cleaned value)).

End FraudDetectionForm.

Module FraudDetectionFormProps.
Import FraudDetectionForm.

(** Induction in steps of four characters, the way [chunks] recurses. *)
Fixpoint by_fours (P : string -> Prop)
    (H0 : P EmptyString)
    (H1 : forall a, P (String.String a EmptyString))
    (H2 : forall a b, P (String.String a (String.String b EmptyString)))
    (H3 : forall a b c,
        P (String.String a (String.String b (String.String c EmptyString))))
    (H4 : forall a b c d rest, P rest ->
        P (String.String a (String.String b (String.String c
             (String.String d rest)))))
    (s : string) : P s :=
  match s with
  | EmptyString => H0
  | String.String a EmptyString => H1 a
  | String.String a (String.String b EmptyString) => H2 a b
  | String.String a (String.String b (String.String c EmptyString)) =>
      H3 a b c
  | String.String a (String.String b (String.String c (String.String d rest))) =>
      H4 a b c d rest (by_fours P H0 H1 H2 H3 H4 rest)
  end.

Lemma append_cons (c : ascii) (s t : string) :
  String.append (String.String c s) t = String.String c (String.append s t).
Proof. reflexivity. Qed.

Lemma length_append (s t : string) :
  String.length (String.append s t)
  = (String.length s + String.length t)%nat.
Proof.
  induction s as [|c s IH]; [reflexivity|].
  rewrite append_cons. simpl. rewrite IH. reflexivity.
Qed.

Lemma cleaned_append (s t : string) :
  cleaned (String.append s t) = String.append (cleaned s) (cleaned t).
Proof.
  induction s as [|c s IH]; [reflexivity|].
  rewrite append_cons. simpl.
  destruct (is_space c); rewrite IH; reflexivity.
Qed.

Lemma cleaned_twice (s : string) : cleaned (cleaned s) = cleaned s.
Proof.
  induction s as [|c s IH]; simpl; [reflexivity|].
  destruct (is_space c) eqn:Hc; simpl; rewrite ?Hc, IH; reflexivity.
Qed.

Lemma concat_cons (sep x : string) (xs : list string) :
  xs <> [] ->
  String.concat sep (x :: xs)
  = String.append x (String.append sep (String.concat sep xs)).
Proof. destruct xs; [congruence | reflexivity]. Qed.

Lemma chunks_nonempty (s : string) : s <> EmptyString -> chunks s <> [].
Proof.
  destruct s as [|a [|b [|c [|d rest]]]]; simpl; congruence.
Qed.

(** Taking the spaces out of the grouped text gives the ungrouped one. *)
Lemma cleaned_groups (s : string) :
  cleaned (String.concat " " (chunks s)) = cleaned s.
Proof.
  induction s as [| | | |a b c d rest IH] using by_fours;
    try reflexivity.
  destruct rest as [|e rest].
  - reflexivity.
  - change (chunks (String.String a (String.String b (String.String c
              (String.String d (String.String e rest))))))
      with (String.String a (String.String b (String.String c
              (String.String d EmptyString)))
            :: chunks (String.String e rest)).
    rewrite concat_cons by (apply chunks_nonempty; discriminate).
    rewrite !cleaned_append, IH.
    change (cleaned " ") with EmptyString.
    change (String.String a (String.String b (String.String c
              (String.String d (String.String e rest)))))
      with (String.append
              (String.String a (String.String b (String.String c
                 (String.String d EmptyString))))
              (String.String e rest)).
    rewrite cleaned_append. reflexivity.
Qed.

Lemma length_groups (s : string) :
  String.length (String.concat " " (chunks s))
  = (String.length s + (String.length s - 1) / 4)%nat.
Proof.
  induction s as [| | | |a b c d rest IH] using by_fours;
    try reflexivity.
  destruct rest as [|e rest].
  - reflexivity.
  - change (chunks (String.String a (String.String b (String.String c
              (String.String d (String.String e rest))))))
      with (String.String a (String.String b (String.String c
              (String.String d EmptyString)))
            :: chunks (String.String e rest)).
    rewrite concat_cons by (apply chunks_nonempty; discriminate).
    rewrite !length_append, IH.
    simpl String.length.
    replace (S (S (S (S (S (String.length rest))))) - 1)%nat
      with (String.length rest + 1 * 4)%nat by lia.
    rewrite Nat.div_add by discriminate.
    replace (S (String.length rest) - 1)%nat with (String.length rest) by lia.
    lia.
Qed.

(** Formatting keeps every character that is not white space, in order,
    and formatting what is already formatted changes nothing: the field
    can reformat its own value at every key stroke. *)
Theorem formatCardNumber_idempotent (value : string) :
  cleaned (formatCardNumber value) = cleaned value /\
  formatCardNumber (formatCardNumber value) = formatCardNumber value.
Proof.
  assert (H : cleaned (formatCardNumber value) = cleaned value).
  { unfold formatCardNumber. rewrite cleaned_groups. apply cleaned_twice. }
  split; [exact H|].
  unfold formatCardNumber at 1. rewrite H. reflexivity.
Qed.

(** The formatted text has the [n] characters that are not white space
    and one space after every full group of four but the last:
    [n + (n - 1) / 4] characters, 19 for the 16 digits of a card number
    (the field's [maxLength]). *)
Theorem formatCardNumber_length (value : string) :
  String.length (formatCardNumber value)
  = (String.length (cleaned value)
     + (String.length (cleaned value) - 1) / 4)%nat.
Proof. unfold formatCardNumber. apply length_groups. Qed.

End FraudDetectionFormProps.

(* ===================================================================== *)
(** * The dashboard: recent alerts *)
(* ===================================================================== *)

Module Dashboard.
Import JS.

Record Alert : Type := {
  id : string;
  amount : number;
  timestamp : string;
  riskScore : number;
  status : Transactions.Status
}.

Section Page.

(** [new Date(s).getTime()] ([None]: NaN, an invalid date), [Date.now()]
    and [toUpperCase]. *)
Variable getTime : string -> option Z.
Variable now : Z.
Variable toUpperCase : string -> string.

(** [Math.floor((Date.now() - date.getTime()) / 60000)]. *)
Definition minutesAgo (timestamp : string) : option Z :=
  (fun ms => (now - ms) / 60000) <$> getTime timestamp.

(** The time column: minutes below an hour, then whole hours, "hours"
    from two on; with an invalid date every number is NaN. *)
Definition ago (minutesAgo : option Z) : string :=
  match minutesAgo with
  | Some m =>
      if m <? 60 then String.append (JSONText.decimal m) " min ago"
      else
        String.append (JSONText.decimal (m / 60))
          (String.append " hour"
             (String.append (if 1 <? m / 60 then "s" else "") " ago"))
  | None => "NaN hour ago"
  end.

Definition alert (pred : History.PredictionResponse) : Alert :=
  {| id := toUpperCase (slice_first 8 (History.transaction_id pred));
     amount := 0%float;
     timestamp := ago (minutesAgo (History.timestamp_of pred));
     riskScore :=
       Math_round (PrimFloat.mul (History.fraud_probability pred) 100%float);
     status := if History.is_fraud pred then Transactions.fraudulent
               else Transactions.pending |}.

(** [predictions?.predictions.slice(0, 8).map(...) || []]. *)
Definition recentAlerts (predictions : option (list History.PredictionResponse))
  : list Alert :=
  match predictions with
  | Some l => List.map alert (firstn 8 l)
  | None => []
  end.

End Page.

End Dashboard.

Module DashboardProps.
Import JS Dashboard.

Section Page.

Variable getTime : string -> option Z.
Variable now : Z.
Variable toUpperCase : string -> string.

(** The dashboard shows the first eight predictions at most, in order,
    and never as "legitimate": a prediction that is not a fraud is
    "pending" here, so the alert and the history page give the same
    prediction the same status exactly when it is a fraud or its fraud
    probability is above 0.5. *)
Theorem recentAlerts_never_legitimate (l : list History.PredictionResponse) :
  (List.length (recentAlerts getTime now toUpperCase (Some l)) <= 8)%nat /\
  Forall2
    (fun pred alert =>
       status alert <> Transactions.legitimate /\
       (status alert = History.result_of pred <->
        History.is_fraud pred = true \/
        gt (History.fraud_probability pred) 0.5%float = true))
    (firstn 8 l)
    (recentAlerts getTime now toUpperCase (Some l)).
Proof.
  simpl. split; [rewrite length_map, length_firstn; lia|].
  induction (firstn 8 l) as [|pred rest IH]; simpl; constructor; auto.
  simpl. unfold History.result_of.
  destruct (History.is_fraud pred),
           (gt (History.fraud_probability pred) 0.5%float);
    split; try discriminate; intuition congruence.
Qed.

End Page.

End DashboardProps.

Module HistoryMore.
Import JS History.

Section Page.

Variable toLocaleString : string -> string.
Variable toUpperCase : string -> string.
Variable toLowerCase : string -> string.

(** The search never adds, repeats or reorders a record; an empty search
    shows them all; searching the result again for the same term changes
    nothing. *)
Theorem filteredData_sublist (searchTerm : string) (l : list HistoryRecord) :
  sublist (filteredData toLowerCase searchTerm l) l /\
  filteredData toLowerCase "" l = l /\
  filteredData toLowerCase searchTerm (filteredData toLowerCase searchTerm l)
  = filteredData toLowerCase searchTerm l.
Proof.
  unfold filteredData. split; [|split; [reflexivity|]].
  - destruct (String.eqb searchTerm "");
      [reflexivity | apply TransactionsMore.filter_is_sublist].
  - destruct (String.eqb searchTerm "");
      [reflexivity | apply TransactionsMore.filter_again].
Qed.

(** The details of a row are keyed by the first eight characters of the
    transaction id, not by the prediction: the eye button of one record
    opens and closes the details of every record whose transaction id
    starts with the same eight characters (every prediction of the same
    transaction), and of no other. *)
Theorem details_open_together
    (expanded : gmap string bool) (clicked other : PredictionResponse) :
  let record := historyRecord toLocaleString toUpperCase in
  (slice_first 8 (transaction_id clicked)
   = slice_first 8 (transaction_id other) ->
   details_open (toggle_details (record clicked) expanded) (record other)
   = negb (details_open expanded (record other))) /\
  (transactionId (record clicked) <> transactionId (record other) ->
   details_open (toggle_details (record clicked) expanded) (record other)
   = details_open expanded (record other)).
Proof.
  unfold toggle_details, details_open. simpl. split.
  - intros ->. rewrite lookup_insert_eq. reflexivity.
  - intros Hne. rewrite lookup_insert_ne by exact Hne. reflexivity.
Qed.

End Page.

Lemma click_not_negative (has_more : bool) (page : Z) (b : page_button) :
  0 <= page -> 0 <= click has_more page b <= page + 1.
Proof.
  intros Hp. unfold click.
  destruct has_more, b; try lia.
  destruct (Z.eqb_spec page 0); lia.
Qed.

(** The history never asks the API for a negative offset: the page stays
    between 0 and the number of clicks, and the offset is 20 times the
    page.  On a response without more records both buttons are gone, so
    from the last page there is no way back. *)
Theorem history_page_bounds (clicks : list (page_button * bool)) :
  0 <= page_after clicks <= Z.of_nat (List.length clicks) /\
  0 <= offset (page_after clicks) /\
  offset (page_after clicks) = 20 * page_after clicks /\
  (forall page b, click false page b = page).
Proof.
  assert (H : 0 <= page_after clicks <= Z.of_nat (List.length clicks)).
  { unfold page_after.
    assert (Hgen : forall p k, 0 <= p <= k ->
              0 <= fold_left (fun page '(b, has_more) => click has_more page b)
                             clicks p
                <= k + Z.of_nat (List.length clicks)).
    { induction clicks as [|[b more] rest IH]; intros p k Hp; simpl.
      - lia.
      - pose proof (click_not_negative more p b (proj1 Hp)) as Hc.
        specialize (IH (click more p b) (k + 1)). 
        assert (Hk : 0 <= click more p b <= k + 1) by lia.
        specialize (IH Hk). lia. }
    specialize (Hgen 0 0). simpl in Hgen. apply Hgen. lia. }
  unfold offset, limit. repeat split; try lia. 
Qed.

End HistoryMore.


(* ===================================================================== *)
(** * The detection page and the saved settings
    (client/src/pages/FraudDetection.tsx) *)

Module FraudDetectionPage.
Import JS Browser.

(** The two pieces of React state that follow the settings. *)
Record State : Type := {
  currency : value;
  showFeatureImportance : bool
}.

(** The [useState] defaults. *)
Definition defaults : State :=
  {| currency := String "INR"; showFeatureImportance := true |}.

Definition setCurrency (v : value) (st : State) : State :=
  {| currency := v; showFeatureImportance := showFeatureImportance st |}.

Definition setShowFeatureImportance (b : bool) (st : State) : State :=
  {| currency := currency st; showFeatureImportance := b |}.

(** [currency === "USD"]. *)
Definition is_USD (v : value) : bool :=
  match v with
  | String s => String.eqb s "USD"
  | _ => false
  end.

(** [moneyFmt]: the locale and the currency handed to
    [Intl.NumberFormat]. *)
Definition moneyFmt (st : State) : string * string :=
  let c := if is_USD (currency st) then "USD" else "INR" in
  let locale := if String.eqb c "USD" then "en-US" else "en-IN" in
  (locale, c).

Section Page.

Variable JSON_parse : string -> option value.

(** The body of the [try], on the parsed settings. *)
Definition apply_settings (s : value) (st : State) : State :=
  let ui := get s "ui" in
  let st :=
    if truthy (get ui "currency")
    then setCurrency (get ui "currency") st else st in
  match get ui "showFeatureImportance" with
  | Bool b => setShowFeatureImportance b st
  | _ => st
  end.

(** The effect on mount and the "settings-changed" [handler] have the same
    body; when [JSON.parse] throws, the empty [catch] leaves the state. *)
Definition handler (w : World) (st : State) : State :=
  match JSON_parse (or_default (localStorage w !! "settings") "{}") with
  | Some s => apply_settings s st
  | None => st
  end.

End Page.

End FraudDetectionPage.

Module FraudDetectionPageProps.
Import JS Browser FraudDetectionPage.

Section Page.

Variable accepts : gmap string string -> string -> string -> bool.
Variable JSON_stringify : value -> string.
Variable JSON_parse : string -> option value.
Variable StringToNumber : string -> number.
Variable ObjectToNumber : value -> number.

(** The currency of the settings form is always one of the two options of
    its select. *)
Lemma edited_currency (edits : list Settings.edit) :
  Forall Settings.offered edits ->
  exists c,
    Settings.currency (Settings.edited StringToNumber ObjectToNumber edits)
    = String c /\
    In c Settings.currency_options.
Proof.
  intros Hoffered. unfold Settings.edited.
  assert (Hstart : exists c, Settings.currency Settings.defaults = String c
                             /\ In c Settings.currency_options)
    by (exists "INR"; split; [reflexivity | left; reflexivity]).
  revert Hstart. generalize Settings.defaults.
  induction Hoffered as [|e edits He Hrest IH]; intros st Hst; simpl;
    [exact Hst|].
  apply IH. destruct e as [text|checked|text|checked|text]; simpl in *;
    try exact Hst.
  exists text. split; [reflexivity | exact He].
Qed.

(** What the user picks on the settings form reaches the detection page:
    after Save Settings, the mount effect or the "settings-changed"
    handler of the detection page sets the saved currency and the saved
    feature-importance switch, whatever the page held before, and money
    is formatted in the currency picked on the form, with "en-US" for
    "USD" and "en-IN" for "INR". *)
Theorem detection_page_follows_the_form
    (edits : list Settings.edit) (w : World) (page0 : State) :
  Forall Settings.offered edits ->
  accepts (localStorage w) "settings"
    (JSON_stringify
       (Settings.next (Settings.edited StringToNumber ObjectToNumber edits)))
    = true ->
  JSON_stringify
    (Settings.next (Settings.edited StringToNumber ObjectToNumber edits))
  <> "" ->
  JSON_parse
    (JSON_stringify
       (Settings.next (Settings.edited StringToNumber ObjectToNumber edits)))
    = Some (Settings.next
              (Settings.edited StringToNumber ObjectToNumber edits)) ->
  let st := Settings.edited StringToNumber ObjectToNumber edits in
  let page :=
    handler JSON_parse
      (snd (Settings.save accepts JSON_stringify st w)) page0 in
  currency page = Settings.currency st /\
  showFeatureImportance page = Settings.showFeatureImportance st /\
  exists c,
    Settings.currency st = String c /\
    snd (moneyFmt page) = c /\
    fst (moneyFmt page) = (if String.eqb c "USD" then "en-US" else "en-IN").
Proof.
  intros Hoffered Hacc Htext Hjson.
  destruct (edited_currency edits Hoffered) as (c & Hc & Hin).
  revert Hacc Htext Hjson Hc.
  generalize (Settings.edited StringToNumber ObjectToNumber edits).
  intros st Hacc Htext Hjson Hc. cbv zeta.
  unfold Settings.save, mbind, js_bind, bind, localStorage_setItem.
  rewrite Hacc. simpl. unfold handler. simpl. rewrite lookup_insert_eq.
  simpl.
  destruct (String.eqb_spec (JSON_stringify (Settings.next st)) "");
    [contradiction|].
  rewrite Hjson.
  destruct st as [cur sfi items ar sec]. simpl in *. subst cur.
  destruct Hin as [<-|[<-|[]]]; (split; [reflexivity|]);
    (split; [reflexivity|]); eexists; (split; [reflexivity|]);
    split; reflexivity.
Qed.

End Page.

End FraudDetectionPageProps.

(* ===================================================================== *)
(** * The further properties on concrete inputs *)
(* ===================================================================== *)

Module MoreExamples.
Import JS Examples.

(** ** The table *)

Definition third_page : TransactionsTable.State :=
  {| TransactionsTable.currentPage := 3 |}.

Lemma page_is_slice_witness :
  1 <= TransactionsTable.currentPage third_page /\
  (TransactionsTable.currentTransactions (seq 0 25) third_page
   = firstn
       (Z.to_nat
          (Z.min (TransactionsTable.currentPage third_page * 10)
                 (Z.of_nat (List.length (seq 0 25)))
           - (TransactionsTable.currentPage third_page - 1) * 10))
       (skipn (Z.to_nat ((TransactionsTable.currentPage third_page - 1) * 10))
              (seq 0 25))
   /\
   TransactionsTable.currentTransactions (seq 0 25) third_page
   = firstn 10
       (skipn (Z.to_nat ((TransactionsTable.currentPage third_page - 1) * 10))
              (seq 0 25))).
Proof.
  assert (H : 1 <= TransactionsTable.currentPage third_page)
    by (apply Z.leb_le; reflexivity).
  split; [exact H|].
  exact (TransactionsTableProps.page_is_slice (seq 0 25) third_page H).
Defined.

(** A table of 25 rows whose list changes while it is mounted: to 12 rows
    on page 2, to 35 rows on page 1. *)
Definition filters_change : list (TransactionsTable.event nat) :=
  [TransactionsTable.Click TransactionsTable.Next;
   TransactionsTable.Render (seq 0 12);
   TransactionsTable.Click TransactionsTable.Next;
   TransactionsTable.Click TransactionsTable.Prev;
   TransactionsTable.Render (seq 0 35);
   TransactionsTable.Click TransactionsTable.Next;
   TransactionsTable.Click TransactionsTable.Next].

Example third_page_of_35 :
  TransactionsTable.session (seq 0 25) filters_change
  = (seq 0 35, {| TransactionsTable.currentPage := 3 |}).
Proof. vm_compute. reflexivity. Qed.

Lemma pages_stay_in_range_across_renders_witness :
  seq 0 25 <> [] /\
  TransactionsTable.page_remains (seq 0 25, TransactionsTable.initial)
    filters_change /\
  1 <= TransactionsTable.currentPage
         (snd (TransactionsTable.session (seq 0 25) filters_change))
    <= TransactionsTable.totalPages
         (fst (TransactionsTable.session (seq 0 25) filters_change)).
Proof.
  assert (Hne : seq 0 25 <> []) by discriminate.
  assert (Hremains :
    TransactionsTable.page_remains (seq 0 25, TransactionsTable.initial)
      filters_change).
  { repeat split; vm_compute; discriminate. }
  split; [exact Hne|]. split; [exact Hremains|].
  exact (TableMore.pages_stay_in_range_across_renders (seq 0 25)
           filters_change Hne Hremains).
Defined.

(** Outside that condition the page is left behind: on page 3 of 25 rows,
    a render with 5 rows shows page 3 of 1 with no row, and Previous then
    shows page 2 of 1. *)
Example page_survives_a_shorter_list :
  TransactionsTable.session (seq 0 25)
    [TransactionsTable.Click TransactionsTable.Next;
     TransactionsTable.Click TransactionsTable.Next;
     TransactionsTable.Render (seq 0 5)]
  = (seq 0 5, {| TransactionsTable.currentPage := 3 |}) /\
  TransactionsTable.totalPages (seq 0 5) = 1 /\
  TransactionsTable.currentTransactions (seq 0 5)
    {| TransactionsTable.currentPage := 3 |} = [] /\
  TransactionsTable.session (seq 0 25)
    [TransactionsTable.Click TransactionsTable.Next;
     TransactionsTable.Click TransactionsTable.Next;
     TransactionsTable.Render (seq 0 5);
     TransactionsTable.Click TransactionsTable.Prev]
  = (seq 0 5, {| TransactionsTable.currentPage := 2 |}).
Proof. repeat split; vm_compute; reflexivity. Qed.

Example eye_button_with_and_without_the_prop :
  TransactionsTable.onClick false "t1"
    {| TransactionsTable.expanded := ∅; TransactionsTable.viewed := [] |}
  = {| TransactionsTable.expanded := {[ "t1" := true ]};
       TransactionsTable.viewed := [] |} /\
  TransactionsTable.onClick true "t1"
    {| TransactionsTable.expanded := ∅; TransactionsTable.viewed := [] |}
  = {| TransactionsTable.expanded := ∅;
       TransactionsTable.viewed := ["t1"] |}.
Proof. split; reflexivity. Qed.

Example forty_three_rows_on_five_pages :
  List.map (fun s => List.length
                       (TransactionsTable.currentTransactions (seq 0 43) s))
           (TransactionsTable.pages (seq 0 43))
  = [10; 10; 10; 10; 3]%nat.
Proof. vm_compute. reflexivity. Qed.

(** ** The transactions page *)

Definition pending_only : Transactions.Filters :=
  {| Transactions.searchId := Some "";
     Transactions.status_filter := Some "pending";
     Transactions.riskLevel := Some "all" |}.

Lemma by_status_keeps_that_status_witness :
  Transactions.status_filter pending_only
    = Some (Transactions.status_name Transactions.pending) /\
  (In suspicious (Transactions.by_status pending_only [suspicious]) <->
   In suspicious [suspicious] /\
   Transactions.status suspicious = Transactions.pending).
Proof.
  split; [reflexivity|].
  exact (TransactionsMore.by_status_keeps_that_status
           pending_only Transactions.pending [suspicious] suspicious eq_refl).
Defined.

Lemma server_filter_loses_no_row_witness :
  Transactions.status_filter pending_only
    = Some (Transactions.status_name Transactions.pending) /\
  exists is_fraud,
    Transactions.queryParams pending_only = Some is_fraud /\
    forall txn,
      Transactions.status
        (Transactions.mapTransaction no_conversion no_conversion_of_object
           same_text txn)
      = Transactions.pending ->
      Transactions.txn_is_fraud txn = is_fraud.
Proof.
  split; [reflexivity|].
  exact (TransactionsMore.server_filter_loses_no_row
           no_conversion no_conversion_of_object same_text
           pending_only Transactions.pending eq_refl).
Defined.

Example query_for_pending :
  Transactions.queryParams pending_only = Some false /\
  Transactions.queryParams high_only = None.
Proof. split; reflexivity. Qed.

(** ** Analytics *)

(** Two trends of the same day, the later one first in the response. *)
Definition same_day_trends : list Analytics.FraudTrend :=
  [trend "2024-01-02" 25 0; trend "2024-01-01" 10 1; trend "2024-01-01" 7 3].

Definition same_day_heap : gmap Analytics.ref (list Analytics.FraudTrend) :=
  {[ 1%positive := same_day_trends ]}.

Example same_day_chart :
  List.map Analytics.fraud
    (fst (Analytics.fraudTrendsData sample_getTime same_text
            (Some 1%positive) same_day_heap))
  = [1; 3; 0].
Proof. vm_compute. reflexivity. Qed.

Lemma same_day_heap_holds_trends :
  same_day_heap !! 1%positive = Some same_day_trends.
Proof. vm_compute. reflexivity. Defined.

Lemma same_day_trends_valid :
  Forall (AnalyticsProps.valid_date sample_getTime) same_day_trends.
Proof. repeat constructor; eexists; vm_compute; reflexivity. Defined.

Lemma same_date_trends_keep_their_order_witness :
  same_day_heap !! 1%positive = Some same_day_trends /\
  Forall (AnalyticsProps.valid_date sample_getTime) same_day_trends /\
  fst (Analytics.fraudTrendsData sample_getTime same_text (Some 1%positive)
         same_day_heap)
  = List.map (Analytics.trendPoint same_text)
      (Analytics.sorted_by (Analytics.by_date sample_getTime)
         same_day_trends) /\
  forall t : Z,
    AnalyticsMore.at_time sample_getTime t
      (Analytics.sorted_by (Analytics.by_date sample_getTime)
         same_day_trends)
    = AnalyticsMore.at_time sample_getTime t same_day_trends.
Proof.
  split; [exact same_day_heap_holds_trends|].
  split; [exact same_day_trends_valid|].
  exact (AnalyticsMore.same_date_trends_keep_their_order
           sample_getTime same_text same_day_heap 1%positive same_day_trends
           same_day_heap_holds_trends same_day_trends_valid).
Defined.

Lemma hourly_bars_follow_the_response_witness :
  same_day_heap !! 1%positive = Some same_day_trends /\
  AnalyticsHourly.hourlyData (Some 1%positive)
    (snd (Analytics.fraudTrendsData sample_getTime same_text
            (Some 1%positive) same_day_heap))
  = AnalyticsHourly.hourlyData (Some 1%positive) same_day_heap /\
  List.map AnalyticsHourly.count
    (AnalyticsHourly.hourlyData (Some 1%positive)
       (snd (Analytics.fraudTrendsData sample_getTime same_text
               (Some 1%positive) same_day_heap)))
  = List.map Analytics.fraud_transactions (firstn 24 same_day_trends) /\
  (List.length (AnalyticsHourly.hourlyData (Some 1%positive) same_day_heap)
   <= 24)%nat /\
  Forall (fun bar => String.length (AnalyticsHourly.hour bar) = 2%nat)
         (AnalyticsHourly.hourlyData (Some 1%positive) same_day_heap).
Proof.
  split; [exact same_day_heap_holds_trends|].
  exact (AnalyticsMore.hourly_bars_follow_the_response
           sample_getTime same_text same_day_heap 1%positive same_day_trends
           same_day_heap_holds_trends).
Defined.

Example hourly_labels :
  List.map AnalyticsHourly.hour
    (AnalyticsHourly.hourlyData (Some 1%positive) same_day_heap)
  = ["00"; "02"; "04"].
Proof. vm_compute. reflexivity. Qed.

(** ** Settings *)

(** [Number(s)] on a string of digits; anything else is not a number. *)
Definition digits_to_number (s : string) : number :=
  match JSONText.natural s None with
  | Some (n, EmptyString) => of_Z (Z.of_N n)
  | _ => NaN
  end.

Definition some_edits : list Settings.edit :=
  [Settings.ChangeCurrency "USD";
   Settings.ChangeRefreshSec "soon";
   Settings.ChangeItemsPerPage "50";
   Settings.CheckAutoRefresh false;
   Settings.ChangeRefreshSec "0"].

Example unusable_interval_falls_back :
  Settings.edited digits_to_number no_conversion_of_object some_edits
  = {| Settings.currency := String "USD";
       Settings.showFeatureImportance := true;
       Settings.historyItems := 50%float;
       Settings.autoRefresh := false;
       Settings.refreshSec := 60%float |}.
Proof. vm_compute. reflexivity. Qed.

Lemma load_keeps_state_without_settings_witness :
  JSONText.parse "{}" = Some (Object []) /\
  (Browser.localStorage first_visit !! "settings" = None \/
   Browser.localStorage first_visit !! "settings" = Some "" \/
   (exists text,
      Browser.localStorage first_visit !! "settings" = Some text /\
      text <> "" /\ JSONText.parse text = None)) /\
  Settings.load JSONText.parse digits_to_number no_conversion_of_object
    first_visit chosen = chosen.
Proof.
  assert (Hempty : JSONText.parse "{}" = Some (Object []))
    by (vm_compute; reflexivity).
  assert (Hstored :
    Browser.localStorage first_visit !! "settings" = None \/
    Browser.localStorage first_visit !! "settings" = Some "" \/
    (exists text,
       Browser.localStorage first_visit !! "settings" = Some text /\
       text <> "" /\ JSONText.parse text = None))
    by (left; vm_compute; reflexivity).
  split; [exact Hempty|]. split; [exact Hstored|].
  exact (SettingsMore.load_keeps_state_without_settings
           JSONText.parse digits_to_number no_conversion_of_object
           first_visit chosen Hempty Hstored).
Defined.

Example broken_settings_are_ignored :
  JSONText.parse "{oops" = None /\
  Settings.load JSONText.parse digits_to_number no_conversion_of_object
    (Browser.with_localStorage {["settings" := "{oops"]} first_visit)
    chosen = chosen.
Proof. split; vm_compute; reflexivity. Qed.

Lemma edited_settings_are_restored_witness :
  (forall text, In text Settings.itemsPerPage_options ->
     number_truthy (digits_to_number text) = true) /\
  Forall Settings.offered some_edits /\
  SeedingProps.always (Browser.localStorage first_visit) "settings"
    (JSONText.stringify
       (Settings.next
          (Settings.edited digits_to_number no_conversion_of_object
             some_edits))) = true /\
  JSONText.stringify
    (Settings.next
       (Settings.edited digits_to_number no_conversion_of_object some_edits))
  <> "" /\
  JSONText.parse
    (JSONText.stringify
       (Settings.next
          (Settings.edited digits_to_number no_conversion_of_object
             some_edits)))
  = Some (Settings.next
            (Settings.edited digits_to_number no_conversion_of_object
               some_edits)) /\
  Settings.load JSONText.parse digits_to_number no_conversion_of_object
    (snd (Settings.save SeedingProps.always JSONText.stringify
            (Settings.edited digits_to_number no_conversion_of_object
               some_edits)
            first_visit))
    Settings.defaults
  = Settings.edited digits_to_number no_conversion_of_object some_edits.
Proof.
  assert (Hoptions : forall text, In text Settings.itemsPerPage_options ->
            number_truthy (digits_to_number text) = true).
  { intros text [<-|[<-|[<-|[]]]]; vm_compute; reflexivity. }
  assert (Hoffered : Forall Settings.offered some_edits).
  { unfold some_edits.
    repeat (apply List.Forall_cons; [simpl; auto|]).
    apply List.Forall_nil. }
  assert (Htext :
    JSONText.stringify
      (Settings.next
         (Settings.edited digits_to_number no_conversion_of_object
            some_edits)) <> "")
    by (vm_compute; discriminate).
  assert (Hparse :
    JSONText.parse
      (JSONText.stringify
         (Settings.next
            (Settings.edited digits_to_number no_conversion_of_object
               some_edits)))
    = Some (Settings.next
              (Settings.edited digits_to_number no_conversion_of_object
                 some_edits)))
    by (vm_compute; reflexivity).
  split; [exact Hoptions|]. split; [exact Hoffered|].
  split; [reflexivity|]. split; [exact Htext|]. split; [exact Hparse|].
  exact (SettingsMore.edited_settings_are_restored
           SeedingProps.always JSONText.stringify JSONText.parse
           digits_to_number no_conversion_of_object
           some_edits first_visit Settings.defaults
           Hoptions Hoffered eq_refl Htext Hparse).
Defined.

Lemma detection_page_follows_the_form_witness :
  Forall Settings.offered some_edits /\
  FraudDetectionPage.currency
    (FraudDetectionPage.handler JSONText.parse
       (snd (Settings.save SeedingProps.always JSONText.stringify
               (Settings.edited digits_to_number no_conversion_of_object
                  some_edits)
               first_visit))
       FraudDetectionPage.defaults)
  = String "USD" /\
  FraudDetectionPage.moneyFmt
    (FraudDetectionPage.handler JSONText.parse
       (snd (Settings.save SeedingProps.always JSONText.stringify
               (Settings.edited digits_to_number no_conversion_of_object
                  some_edits)
               first_visit))
       FraudDetectionPage.defaults)
  = ("en-US", "USD").
Proof.
  assert (Hoffered : Forall Settings.offered some_edits).
  { unfold some_edits.
    repeat (apply List.Forall_cons; [simpl; auto|]).
    apply List.Forall_nil. }
  assert (Htext :
    JSONText.stringify
      (Settings.next
         (Settings.edited digits_to_number no_conversion_of_object
            some_edits)) <> "")
    by (vm_compute; discriminate).
  assert (Hparse :
    JSONText.parse
      (JSONText.stringify
         (Settings.next
            (Settings.edited digits_to_number no_conversion_of_object
               some_edits)))
    = Some (Settings.next
              (Settings.edited digits_to_number no_conversion_of_object
                 some_edits)))
    by (vm_compute; reflexivity).
  split; [exact Hoffered|].
  destruct (FraudDetectionPageProps.detection_page_follows_the_form
              SeedingProps.always JSONText.stringify JSONText.parse
              digits_to_number no_conversion_of_object
              some_edits first_visit FraudDetectionPage.defaults
              Hoffered eq_refl Htext Hparse)
    as (Hcurrency & _ & _).
  split; [exact Hcurrency|].
  vm_compute. reflexivity.
Defined.

(** ** The shell and the OAuth callback *)

(** A matcher that knows only exact paths. *)
Definition exact_path (pattern location : string) : bool :=
  String.eqb pattern location.

Example where_visitors_land :
  List.map (fun location => (App.shown exact_path 1 false location,
                             App.shown exact_path 1 true location))
           ["/"; "/history"; "/login"; "/nowhere"]
  = [(App.Login, App.Dashboard); (App.Login, App.History);
     (App.Login, App.Dashboard); (App.Login, App.NotFound)].
Proof. vm_compute. reflexivity. Qed.

Lemma routes_guard_the_pages_witness :
  exact_path "/login" "/login" = true /\
  exact_path "/" "/" = true /\
  App.shown exact_path 1 false "/transactions" = App.Login /\
  App.shown exact_path 1 true "/transactions" <> App.Login /\
  (forall to, App.shown exact_path 1 true "/transactions" <> App.Redirect to).
Proof.
  split; [reflexivity|]. split; [reflexivity|].
  exact (AppProps.routes_guard_the_pages exact_path "/transactions"
           eq_refl eq_refl).
Defined.

(** The fragment of a callback, already split into its parameters. *)
Definition callback_params (fragment : string) : list (string * string) :=
  if String.eqb fragment "access_token=A&refresh_token=R"
  then [("access_token", "A"); ("refresh_token", "R")]
  else if String.eqb fragment "access_token=&refresh_token=R"
  then [("access_token", ""); ("refresh_token", "R")]
  else [].

Definition back_from_oauth (fragment : string) : Browser.World :=
  {| Browser.localStorage := ∅;
     Browser.sessionStorage := ∅;
     Browser.location_hash := String.append "#" fragment;
     Browser.route := "/login";
     Browser.events := [];
     Browser.console := [] |}.

Lemma oauth_callback_needs_a_reload_witness :
  exact_path "/login"
    (Browser.route (back_from_oauth "access_token=A&refresh_token=R"))
  = true /\
  App.has_access_token (back_from_oauth "access_token=A&refresh_token=R")
  = false /\
  Login.strip_hash
    (Browser.location_hash
       (back_from_oauth "access_token=A&refresh_token=R")) <> "" /\
  LoginProps.fragment_param callback_params
    (back_from_oauth "access_token=A&refresh_token=R") "access_token"
  = Some "A" /\
  LoginProps.fragment_param callback_params
    (back_from_oauth "access_token=A&refresh_token=R") "refresh_token"
  = Some "R" /\
  Browser.localStorage
    (snd (App.mount exact_path callback_params
            (back_from_oauth "access_token=A&refresh_token=R")))
    !! "access_token" = Some "A" /\
  App.isAuthenticated
    (fst (App.mount exact_path callback_params
            (back_from_oauth "access_token=A&refresh_token=R")))
  = false /\
  App.shown exact_path 1
    (App.isAuthenticated
       (fst (App.mount exact_path callback_params
               (back_from_oauth "access_token=A&refresh_token=R"))))
    (Browser.route
       (snd (App.mount exact_path callback_params
               (back_from_oauth "access_token=A&refresh_token=R"))))
  = App.Login.
Proof.
  assert (Hh : Login.strip_hash
                 (Browser.location_hash
                    (back_from_oauth "access_token=A&refresh_token=R"))
               <> "") by (vm_compute; discriminate).
  assert (Ha : "A" <> "") by discriminate.
  assert (Hr : "R" <> "") by discriminate.
  split; [reflexivity|]. split; [reflexivity|]. split; [exact Hh|].
  split; [reflexivity|]. split; [reflexivity|].
  destruct (AppProps.oauth_callback_needs_a_reload callback_params
              exact_path
              (back_from_oauth "access_token=A&refresh_token=R") "A" "R"
              eq_refl eq_refl eq_refl eq_refl Hh eq_refl eq_refl Ha Hr)
    as ((Haccess & _) & (Hauth & _ & Hshown) & _).
  split; [exact Haccess|]. split; [exact Hauth | exact Hshown].
Defined.

Example reload_after_the_callback :
  App.isAuthenticated
    (fst (App.mount exact_path callback_params
            (snd (App.mount exact_path callback_params
                    (back_from_oauth "access_token=A&refresh_token=R")))))
  = true /\
  App.shown exact_path 1 true "/login" = App.Dashboard.
Proof. split; vm_compute; reflexivity. Qed.

Lemma oauth_effect_empty_token_witness :
  (LoginProps.fragment_param callback_params
     (back_from_oauth "access_token=&refresh_token=R") "access_token"
   = Some "" \/
   LoginProps.fragment_param callback_params
     (back_from_oauth "access_token=&refresh_token=R") "refresh_token"
   = Some "") /\
  Login.oauth_effect SeedingProps.always callback_params
    (back_from_oauth "access_token=&refresh_token=R")
  = (Browser.Done tt, back_from_oauth "access_token=&refresh_token=R").
Proof.
  assert (H :
    LoginProps.fragment_param callback_params
      (back_from_oauth "access_token=&refresh_token=R") "access_token"
    = Some "" \/
    LoginProps.fragment_param callback_params
      (back_from_oauth "access_token=&refresh_token=R") "refresh_token"
    = Some "") by (left; reflexivity).
  split; [exact H|].
  exact (LoginProps.oauth_effect_empty_token SeedingProps.always
           callback_params
           (back_from_oauth "access_token=&refresh_token=R") H).
Defined.

(** ** Seeding *)

(** Two visits of the dashboard and one of the transactions page, each
    effect run over before the next starts; the seed request fails. *)
Definition one_after_the_other : list Seeding.event :=
  [Seeding.RenderDashboard SeedingProps.fresh_account;
   Seeding.Settle 0 Seeding.Rejected;
   Seeding.Settle 0 Seeding.Rejected;
   Seeding.RenderDashboard SeedingProps.fresh_account;
   Seeding.Settle 0 Seeding.Rejected;
   Seeding.RenderTransactions SeedingProps.idle_and_empty].

Lemma sequential_runs_seed_once_witness :
  (forall m, SeedingProps.always m (Seeding.seededKey first_visit) "1"
             = true) /\
  SeedingProps.sequential SeedingProps.always (Seeding.start first_visit)
    one_after_the_other /\
  (Seeding.seed_requests
     (Seeding.run SeedingProps.always first_visit one_after_the_other)
   <= 1)%nat.
Proof.
  assert (Hacc : forall m,
            SeedingProps.always m (Seeding.seededKey first_visit) "1" = true)
    by (intros m; reflexivity).
  assert (Hseq : SeedingProps.sequential SeedingProps.always
                   (Seeding.start first_visit) one_after_the_other).
  { repeat split; try (intros H; discriminate H);
      intros _; vm_compute; reflexivity. }
  split; [exact Hacc|]. split; [exact Hseq|].
  exact (SeedingProps.sequential_runs_seed_once SeedingProps.always
           first_visit one_after_the_other Hacc Hseq).
Defined.

(** ** The card, the form and the alerts *)

Example medium_badge_either_way :
  List.map (fun p => (PredictionResult.getRiskLevel p,
                      PredictionResult.isFraud p))
           [45%float; 55%float; 70%float; 39.5%float]
  = [(Transactions.medium, false); (Transactions.medium, true);
     (Transactions.high, true); (Transactions.low, false)].
Proof. vm_compute. reflexivity. Qed.

Example card_number_as_typed :
  List.map FraudDetectionForm.formatCardNumber
    ["1234567890123456"; "1234 5678 9"; "12 34"; ""; "   "]
  = ["1234 5678 9012 3456"; "1234 5678 9"; "1234"; ""; ""].
Proof. vm_compute. reflexivity. Qed.

Example alert_times :
  List.map (Dashboard.ago)
    [Some 0; Some 59; Some 60; Some 119; Some 120; Some 1500; None]
  = ["0 min ago"; "59 min ago"; "1 hour ago"; "1 hour ago"; "2 hours ago";
     "25 hours ago"; "NaN hour ago"].
Proof. vm_compute. reflexivity. Qed.

End MoreExamples.
